(** * fhirstarter: route metadata, format negotiation and response composition

    A shallow embedding of [fhirstarter/utils.py] and of the interaction
    classes of [fhirstarter/interactions.py], with the properties the
    specification states about them.

    Python dictionaries are finite maps ([gmap]); a dictionary display
    [{**a, **b}] and the update [a |= b] are the union in which the entries of
    [b] win.  Exceptions are the [Raise] results of a small error monad, and
    the one object the code mutates, the response handed in by the caller, is
    threaded through [format_response] explicitly. *)

From Stdlib Require Import ZArith Ascii String.
From stdpp Require Import gmap strings list fin_maps.

Local Open Scope string_scope.
Local Open Scope Z_scope.

(** ** Python's own operations, as far as the code uses them *)

Module Py.

(** [bool(s)] for a string: false for the empty string only. *)
Definition str_truthy (s : string) : bool :=
  match s with
  | EmptyString => false
  | String _ _ => true
  end.

(** [bool(x)] for [x : str | None]. *)
Definition opt_str_truthy (x : option string) : bool :=
  match x with
  | Some s => str_truthy s
  | None => false
  end.

(** [bool(x)] for [x : int | None]: false for [None] and for [0]. *)
Definition opt_int_truthy (x : option Z) : bool :=
  match x with
  | Some n => negb (n =? 0)
  | None => false
  end.

(** [x or default] for [x : int | None]. *)
Definition int_or (x : option Z) (default : Z) : Z :=
  match x with
  | Some n => if n =? 0 then default else n
  | None => default
  end.

(** [str.lower] on the ASCII letters. *)
Definition lower_ascii (c : ascii) : ascii :=
  let n := N_of_ascii c in
  if ((65 <=? n) && (n <=? 90))%N then ascii_of_N (n + 32) else c.

Fixpoint lower (s : string) : string :=
  match s with
  | EmptyString => EmptyString
  | String c rest => String (lower_ascii c) (lower rest)
  end.

(** Strings are held as the UTF-8 bytes of the Python string.
    [s.encode("latin-1")] succeeds when every character is below U+0100:
    every byte is ASCII, or the second of a two-byte sequence led by C2 or C3. *)
Fixpoint latin1_encodable (s : string) : bool :=
  match s with
  | EmptyString => true
  | String c rest =>
      let n := N_of_ascii c in
      if (n <? 128)%N then latin1_encodable rest
      else if ((n =? 194) || (n =? 195))%N then
        match rest with
        | String c2 rest' =>
            let n2 := N_of_ascii c2 in
            ((128 <=? n2) && (n2 <? 192))%N && latin1_encodable rest'
        | EmptyString => false
        end
      else false
  end.

End Py.

(** ** The error monad *)

(** Modelled from the spec: [FHIRGeneralError] is declared in the package's
    [exceptions] module, which is not among the sources.  Section 7 has it as
    the error that carries a status and an issue code; the model keeps the
    four keyword arguments it is constructed with.  The others are
    Python's own and the libraries': [KeyError] from a dictionary subscript,
    [AssertionError] from an [assert], [UnicodeEncodeError] from the encoding
    of a header value, [RenderError] for the [TypeError] or [ValueError] of
    the JSON encoder, and [ValidationError] from the schema library. *)
Inductive render_failure : Type :=
| dumps_TypeError
| dumps_ValueError.

Inductive exn : Type :=
| KeyError (key : string)
| AssertionError (message : string)
| FHIRGeneralError (status_code : Z) (severity code details_text : string)
| UnicodeEncodeError (value : string)
| RenderError (why : render_failure)
| ValidationError (model_name : string).

Inductive result (A : Type) : Type :=
| Ok (a : A)
| Raise (e : exn).

Arguments Ok {A} a.
Arguments Raise {A} e.

#[global] Instance result_ret : MRet result := fun A a => Ok a.

#[global] Instance result_bind : MBind result := fun A B k c =>
  match c with
  | Ok a => k a
  | Raise e => Raise e
  end.

(** [try: c  except KeyError: handler]. *)
Definition except_KeyError {A : Type} (c : result A) (handler : result A) : result A :=
  match c with
  | Raise (KeyError _) => handler
  | _ => c
  end.

(** A dictionary built from its items in order, as a display [{k1: v1, ...}]
    or [dict(items)] builds it: a later item replaces an earlier one with the
    same key. *)
Definition dict_of_items {V : Type} (items : list (string * V)) : gmap string V :=
  fold_left (fun d kv => <[ kv.1 := kv.2 ]> d) items ∅.

(** [d[k]] on a dictionary. *)
Definition dict_getitem {V : Type} (d : gmap string V) (k : string) : result V :=
  match d !! k with
  | Some v => Ok v
  | None => Raise (KeyError k)
  end.

(** ** HTTP status constants *)

(** The package's [status] module is not among the sources.  Its constants
    carry the status numbers their names spell, the ones the table of section
    4.3 and the taxonomy of section 7 of the specification list. *)
Module status.
(** Modelled from the spec: the success status of read, search-type and
    update (section 4.3); the constant's module is missing from the sources. *)
Definition HTTP_200_OK : Z := 200.
(** Modelled from the spec: the success status of create (section 4.3); the
    constant's module is missing from the sources. *)
Definition HTTP_201_CREATED : Z := 201.
(** Modelled from the spec: the status of a malformed request (section 7);
    the constant's module is missing from the sources. *)
Definition HTTP_400_BAD_REQUEST : Z := 400.
(** Modelled from the spec: the status of an unauthorized request (section
    7); the constant's module is missing from the sources. *)
Definition HTTP_401_UNAUTHORIZED : Z := 401.
(** Modelled from the spec: the status of a resource that is not found
    (section 7); the constant's module is missing from the sources. *)
Definition HTTP_404_NOT_FOUND : Z := 404.
(** Modelled from the spec: the status of an unprocessable entity (section
    7); the constant's module is missing from the sources. *)
Definition HTTP_422_UNPROCESSABLE_ENTITY : Z := 422.
End status.

(** ** Interactions ([interactions.py]) *)

(** A resource class of the schema library: [get_resource_type()] gives the
    FHIR name of the class. *)
Record ResourceClass : Type := {
  class_name : string;
  get_resource_type : string
}.

Definition Bundle : ResourceClass :=
  {| class_name := "fhir.resources.bundle.Bundle"; get_resource_type := "Bundle" |}.

Definition OperationOutcomeClass : ResourceClass :=
  {| class_name := "fhir.resources.operationoutcome.OperationOutcome";
     get_resource_type := "OperationOutcome" |}.

(** One documented response: the value of an entry of [_Responses]. *)
Record ResponseDoc : Type := {
  model : ResourceClass;
  description : string
}.

(** The values a route-argument dictionary holds ([dict[str, Any]]).  [VAny]
    stands for every object the code never looks into (dependencies, and
    whatever else the caller passes on to the framework). *)
Inductive Value : Type :=
| VStr (s : string)
| VInt (n : Z)
| VBool (b : bool)
| VClass (c : ResourceClass)
| VStrList (l : list string)
| VResponses (r : gmap Z ResponseDoc)
| VAny (repr : string).

(** The user's callback; the route metadata never calls it. *)
Inductive Callable : Type :=
| UserFunction (name : string).

(** The four subclasses of [TypeInteraction]. *)
Inductive InteractionKind : Type :=
| CreateInteraction
| ReadInteraction
| SearchTypeInteraction
| UpdateInteraction.

Record TypeInteraction : Type := {
  kind : InteractionKind;
  resource_type : ResourceClass;
  callable_ : Callable;
  route_options : gmap string Value
}.

Definition label (interaction : TypeInteraction) : string :=
  match kind interaction with
  | CreateInteraction => "create"
  | ReadInteraction => "read"
  | SearchTypeInteraction => "search-type"
  | UpdateInteraction => "update"
  end.

(** [isinstance(interaction, SearchTypeInteraction)] *)
Definition is_search_type (interaction : TypeInteraction) : bool :=
  match kind interaction with
  | SearchTypeInteraction => true
  | _ => false
  end.

(** ** Route metadata ([utils.py], the [*_route_args] functions) *)

Definition Responses_of (code : Z) (doc : ResponseDoc) : gmap Z ResponseDoc :=
  {[ code := doc ]}.

Definition _ok (interaction : TypeInteraction) : gmap Z ResponseDoc :=
  Responses_of status.HTTP_200_OK
    {| model := if negb (is_search_type interaction)
                then resource_type interaction else Bundle;
       description := "Successful " +:+ get_resource_type (resource_type interaction)
                      +:+ " " +:+ label interaction |}.

Definition _created (interaction : TypeInteraction) : gmap Z ResponseDoc :=
  Responses_of status.HTTP_201_CREATED
    {| model := resource_type interaction;
       description := "Successful " +:+ get_resource_type (resource_type interaction)
                      +:+ " create" |}.

Definition _bad_request (interaction : TypeInteraction) : gmap Z ResponseDoc :=
  Responses_of status.HTTP_400_BAD_REQUEST
    {| model := OperationOutcomeClass;
       description := get_resource_type (resource_type interaction) +:+ " "
                      +:+ label interaction +:+ " request could not be parsed or "
                      +:+ "failed basic FHIR validation rules." |}.

Definition _unauthorized (interaction : TypeInteraction) : gmap Z ResponseDoc :=
  Responses_of status.HTTP_401_UNAUTHORIZED
    {| model := OperationOutcomeClass;
       description := get_resource_type (resource_type interaction) +:+ " "
                      +:+ "Authorization is required for the " +:+ label interaction
                      +:+ " interaction that was " +:+ "attempted." |}.

Definition _not_found (interaction : TypeInteraction) : gmap Z ResponseDoc :=
  Responses_of status.HTTP_404_NOT_FOUND
    {| model := OperationOutcomeClass;
       description := "Unknown " +:+ get_resource_type (resource_type interaction)
                      +:+ " resource" |}.

Definition _unprocessable_entity (interaction : TypeInteraction) : gmap Z ResponseDoc :=
  Responses_of status.HTTP_422_UNPROCESSABLE_ENTITY
    {| model := OperationOutcomeClass;
       description := "The proposed " +:+ get_resource_type (resource_type interaction)
                      +:+ " resource" +:+ " violated applicable "
                      +:+ "FHIR profiles or server business rules." |}.

(** [merged_responses |= response(interaction)], for each [response] in turn:
    the entries of the later dictionary win. *)
Definition _responses (interaction : TypeInteraction)
    (responses : list (TypeInteraction -> gmap Z ResponseDoc)) : gmap Z ResponseDoc :=
  fold_left (fun merged_responses response => response interaction ∪ merged_responses)
            responses ∅.

(** A dictionary display [{k1: v1, ..., **options}]: the keyed entries in
    order, then the entries of [options] over them. *)
Definition dict_display (entries : list (string * Value)) (options : gmap string Value)
    : gmap string Value :=
  options ∪ dict_of_items entries.

Definition create_route_args (interaction : TypeInteraction) : gmap string Value :=
  let resource_type_str := get_resource_type (resource_type interaction) in
  dict_display
    [ ("path", VStr ("/" +:+ resource_type_str));
      ("response_model", VClass (resource_type interaction));
      ("status_code", VInt status.HTTP_201_CREATED);
      ("tags", VStrList ["Type:" +:+ get_resource_type (resource_type interaction)]);
      ("summary", VStr (resource_type_str +:+ " " +:+ label interaction));
      ("description", VStr ("The " +:+ resource_type_str
          +:+ " create interaction creates a new "
          +:+ resource_type_str +:+ " resource in a server-assigned location."));
      ("responses", VResponses (_responses interaction
          [_created; _bad_request; _unauthorized; _unprocessable_entity]));
      ("response_model_exclude_none", VBool true) ]
    (route_options interaction).

Definition read_route_args (interaction : TypeInteraction) : gmap string Value :=
  let resource_type_str := get_resource_type (resource_type interaction) in
  dict_display
    [ ("path", VStr ("/" +:+ resource_type_str +:+ "/{id}"));
      ("response_model", VClass (resource_type interaction));
      ("status_code", VInt status.HTTP_200_OK);
      ("tags", VStrList ["Type:" +:+ get_resource_type (resource_type interaction)]);
      ("summary", VStr (resource_type_str +:+ " " +:+ label interaction));
      ("description", VStr ("The " +:+ resource_type_str
          +:+ " read interaction accesses "
          +:+ "the current contents of a " +:+ resource_type_str +:+ " resource."));
      ("responses", VResponses (_responses interaction [_ok; _unauthorized; _not_found]));
      ("response_model_exclude_none", VBool true) ]
    (route_options interaction).

Definition search_type_route_args (interaction : TypeInteraction) (post : bool)
    : gmap string Value :=
  let resource_type_str := get_resource_type (resource_type interaction) in
  dict_display
    [ ("path", VStr ("/" +:+ resource_type_str +:+ (if post then "/_search" else "")));
      ("response_model", VClass Bundle);
      ("status_code", VInt status.HTTP_200_OK);
      ("tags", VStrList ["Type:" +:+ get_resource_type (resource_type interaction)]);
      ("summary", VStr (resource_type_str +:+ " " +:+ label interaction));
      ("description", VStr ("The " +:+ resource_type_str
          +:+ " search-type interaction searches a set of "
          +:+ "resources based on some filter criteria."));
      ("responses", VResponses (_responses interaction [_ok; _bad_request; _unauthorized]));
      ("response_model_exclude_none", VBool true) ]
    (route_options interaction).

Definition update_route_args (interaction : TypeInteraction) : gmap string Value :=
  let resource_type_str := get_resource_type (resource_type interaction) in
  dict_display
    [ ("path", VStr ("/" +:+ resource_type_str +:+ "/{id}"));
      ("response_model", VClass (resource_type interaction));
      ("status_code", VInt status.HTTP_200_OK);
      ("tags", VStrList ["Type:" +:+ get_resource_type (resource_type interaction)]);
      ("summary", VStr (resource_type_str +:+ " " +:+ label interaction));
      ("description", VStr ("The " +:+ resource_type_str
          +:+ " update interaction creates a new current version "
          +:+ "for an existing " +:+ resource_type_str +:+ " resource."));
      ("responses", VResponses (_responses interaction
          [_ok; _bad_request; _unauthorized; _unprocessable_entity]));
      ("response_model_exclude_none", VBool true) ]
    (route_options interaction).

(** A route option that the interaction does not set leaves the entry of the
    route arguments to the code. *)
Definition not_overridden (key : string) (interaction : TypeInteraction) : Prop :=
  route_options interaction !! key = None.

(** Two route-argument dictionaries agree on the success status and on the
    documented responses. *)
Definition same_status_and_responses (args1 args2 : gmap string Value) : Prop :=
  args1 !! "status_code" = args2 !! "status_code"
  /\ args1 !! "responses" = args2 !! "responses".

(** The five routes the builders describe: one for create, read and update,
    two (GET and POST) for search-type. *)
Definition route_builders : list (TypeInteraction -> gmap string Value) :=
  [ create_route_args; read_route_args;
    (fun interaction => search_type_route_args interaction false);
    (fun interaction => search_type_route_args interaction true);
    update_route_args ].

(** The keys every builder writes itself. *)
Definition route_arg_keys : gset string :=
  {[ "path"; "response_model"; "status_code"; "tags"; "summary"; "description";
     "responses"; "response_model_exclude_none" ]}.

(** ** Error payloads ([make_operation_outcome]) *)

(** The part of the schema library's [OperationOutcome] model that the code
    fills in. *)
Record CodeableConcept : Type := { text : string }.

Record OperationOutcomeIssue : Type := {
  severity : string;
  code : string;
  details : CodeableConcept
}.

Record OperationOutcome : Type := { issue : list OperationOutcomeIssue }.

(** What the schema library checks when the outcome is constructed: the
    severity and the code of an issue are of its type [Code], the text of the
    details of its type [String]; each type has a validator of its own. *)
Class SchemaValidators : Type := {
  Code_validate : string -> bool;
  String_validate : string -> bool
}.

(** The constructor of [OperationOutcome] validates what it is given and
    raises [ValidationError] for a value that one of the validators refuses. *)
Definition make_operation_outcome `{SchemaValidators}
    (severity code details_text : string) : result OperationOutcome :=
  if Code_validate severity && Code_validate code && String_validate details_text
  then mret {| issue := [ {| severity := severity;
                             code := code;
                             details := {| text := details_text |} |} ] |}
  else Raise (ValidationError "OperationOutcome").

(** ** Requests, as far as the code reads them *)

(** The framework's request: the method, the header lines in the order they
    arrived (names in lower case, as the server hands them over) and the
    query parameters in the order of the query string. *)
Record Request : Type := {
  method : string;
  headers : list (string * string);
  query_params : list (string * string)
}.

(** [headers.getlist(key)]: the values of all the lines named [key], names
    compared without regard to case. *)
Definition Headers_getlist (key : string) (raw : list (string * string)) : list string :=
  (filter (fun item => item.1 = Py.lower key) raw).*2.

(** [query_params.get(key, default)]: the multi-dictionary answers with the
    last value given for the key. *)
Definition QueryParams_get (key default : string) (items : list (string * string))
    : string :=
  match dict_of_items items !! key with
  | Some v => v
  | None => default
  end.

(** The raw value of a query parameter, [None] when the query does not have
    it: what [query_params.get(key)] answers. *)
Definition query_value (key : string) (request : Request) : option string :=
  dict_of_items (query_params request) !! key.

(** What the query asks for with _pretty: the raw value is the string "true". *)
Definition pretty_requested (request : Request) : bool :=
  bool_decide (query_value "_pretty" request = Some "true").

(** The content types the Accept header lines of a request list. *)
Definition accept_tokens (request : Request) : list string :=
  Headers_getlist "Accept" (headers request).

(** ** Format negotiation ([FormatParameters]) *)

Record FormatParameters : Type := {
  format : string;
  pretty : bool
}.

(** [FormatParameters()] *)
Definition FormatParameters_default : FormatParameters :=
  {| format := "application/fhir+json"; pretty := false |}.

Definition _CONTENT_TYPES : gmap string string :=
  dict_of_items
    [ ("json", "application/fhir+json");
      ("application/json", "application/fhir+json");
      ("application/fhir+json", "application/fhir+json");
      ("xml", "application/fhir+xml");
      ("text/xml", "application/fhir+xml");
      ("application/xml", "application/fhir+xml");
      ("application/fhir+xml", "application/fhir+xml") ].

(** No token of the list has an entry in the alias table. *)
Definition no_alias (tokens : list string) : Prop :=
  Forall (fun token => _CONTENT_TYPES !! token = None) tokens.

(** The loop of [format_from_accept_header] over the listed content types. *)
Fixpoint first_content_type (content_types : list string) : option string :=
  match content_types with
  | [] => None
  | content_type :: rest =>
      let content_type_normalized := _CONTENT_TYPES !! content_type in
      if Py.opt_str_truthy content_type_normalized
      then content_type_normalized
      else first_content_type rest
  end.

Definition format_from_accept_header (request : Request) : option string :=
  if bool_decide (method request = "POST")
  then first_content_type (Headers_getlist "Accept" (headers request))
  else None.

(** [if not x: x = alt], for [x : str | None] and a fallible [alt]: a string
    that tests true is kept, [None] and the empty string are replaced. *)
Definition unless_set (x : option string) (alt : result string) : result string :=
  match x with
  | Some s => if Py.str_truthy s then mret s else alt
  | None => alt
  end.

Definition from_request (request : Request) (raise_exception : bool)
    : result FormatParameters :=
  let format_ := format_from_accept_header request in
  format_ ← except_KeyError
              (unless_set format_
                 (dict_getitem _CONTENT_TYPES
                    (QueryParams_get "_format" "json" (query_params request))))
              (if raise_exception
               then Raise (FHIRGeneralError status.HTTP_400_BAD_REQUEST "error" "structure"
                      "Invalid response format specified for '_format' parameter")
               else mret "application/fhir+json");
  mret {| format := format_;
          pretty := bool_decide
            (QueryParams_get "_pretty" "false" (query_params request) = "true") |}.

(** ** Response composition ([format_response]) *)

(** The serialisers of the schema library, for a type of resources: the
    methods [json(indent=, separators=)], [dict()] and [xml(pretty_print=)];
    and the rendering a [JSONResponse] does when it is constructed, which
    fails for a dictionary the JSON encoder cannot write (one that holds a
    date, say). *)
Class Serializers (Resource Dict : Type) : Type := {
  resource_json : Resource -> Z -> string * string -> string;
  resource_dict : Resource -> Dict;
  resource_xml : Resource -> bool -> string;
  JSONResponse_render : Dict -> string + render_failure
}.

(** The response object bound to the request in flight, which the caller
    hands in and the framework sends in the end. *)
Record Response : Type := {
  response_status_code : option Z;
  raw_headers : list (string * string);
  body : string
}.

(** The first line named [key] takes the new value and the later lines of
    that name go. *)
Fixpoint replace_header (key value : string) (raw : list (string * string))
    : list (string * string) :=
  match raw with
  | [] => []
  | item :: rest =>
      if bool_decide (item.1 = key)
      then (key, value) :: filter (fun later => later.1 <> key) rest
      else item :: replace_header key value rest
  end.

(** [headers[key] = value] on the mutable headers of a response: the name is
    lower-cased; a header that is there is replaced, a new one is appended. *)
Definition MutableHeaders_setitem (key value : string) (raw : list (string * string))
    : list (string * string) :=
  let set_key := Py.lower key in
  if bool_decide (set_key ∈ raw.*1)
  then replace_header set_key value raw
  else raw ++ [(set_key, value)].

(** [response.headers[key] = value] *)
Definition set_header (response : Response) (key value : string) : Response :=
  {| response_status_code := response_status_code response;
     raw_headers := MutableHeaders_setitem key value (raw_headers response);
     body := body response |}.

(** What [format_response] returns: the resource it was given (possibly
    [None]), or a new [Response] or [JSONResponse] object, described by the
    arguments it is constructed with. *)
Inductive Returned (Resource Dict : Type) : Type :=
| ReturnResource (resource : option Resource)
| ReturnResponse (content : string) (status_code : Z) (media_type : string)
| ReturnJSONResponse (content : Dict) (status_code : Z) (media_type : string).

Arguments ReturnResource {Resource Dict} resource.
Arguments ReturnResponse {Resource Dict} content status_code media_type.
Arguments ReturnJSONResponse {Resource Dict} content status_code media_type.

(** The returned value is a response object built by the call. *)
Definition is_new_response {Resource Dict : Type} (returned : Returned Resource Dict)
    : bool :=
  match returned with
  | ReturnResource _ => false
  | ReturnResponse _ _ _ | ReturnJSONResponse _ _ _ => true
  end.

Section ResponseComposer.

Context {Resource Dict : Type} `{Serializers Resource Dict}.

(** [Response(content=, status_code=, media_type=)]: the constructor encodes
    the media type for the Content-Type header of the new response. *)
Definition new_Response (content : string) (status_code : Z) (media_type : string)
    : result (Returned Resource Dict) :=
  if Py.latin1_encodable media_type
  then mret (ReturnResponse content status_code media_type)
  else Raise (UnicodeEncodeError media_type).

(** [JSONResponse(content=, status_code=, media_type=)]: the constructor
    renders the content first, then sets its headers. *)
Definition new_JSONResponse (content : Dict) (status_code : Z) (media_type : string)
    : result (Returned Resource Dict) :=
  match JSONResponse_render content with
  | inl _ =>
      if Py.latin1_encodable media_type
      then mret (ReturnJSONResponse content status_code media_type)
      else Raise (UnicodeEncodeError media_type)
  | inr why => Raise (RenderError why)
  end.

(** [assert response is not None, message], then
    [response.headers["Content-Type"] = format_parameters.format] and
    [return resource]: the two places where the code writes to the caller's
    response.  The header value is encoded before anything is changed. *)
Definition stamp_and_return (message : string) (resource : option Resource)
    (response : option Response) (format_parameters : FormatParameters)
    : result (Returned Resource Dict * option Response) :=
  match response with
  | None => Raise (AssertionError message)
  | Some response =>
      if Py.latin1_encodable (format format_parameters)
      then mret (ReturnResource resource,
                 Some (set_header response "Content-Type" (format format_parameters)))
      else Raise (UnicodeEncodeError (format format_parameters))
  end.

(** The result pairs the returned value with the caller's response object
    as the call leaves it.  A resource object always tests true, so
    [not resource] holds for [None] only. *)
Definition format_response (resource : option Resource) (response : option Response)
    (status_code : option Z) (format_parameters : FormatParameters)
    : result (Returned Resource Dict * option Response) :=
  match resource with
  | None =>
      stamp_and_return "Response object must be provided for a null resource"
        resource response format_parameters
  | Some res =>
      if bool_decide (format format_parameters = "application/fhir+json") then
        if pretty format_parameters then
          new ← new_Response (resource_json res 2 (", ", ": "))
                             (Py.int_or status_code status.HTTP_200_OK)
                             (format format_parameters);
          mret (new, response)
        else
          match status_code with
          | Some code =>
              if negb (code =? 0) then
                new ← new_JSONResponse (resource_dict res) code
                                       (format format_parameters);
                mret (new, response)
              else
                stamp_and_return
                  "Response object or status code must be provided for non-pretty JSON responses"
                  resource response format_parameters
          | None =>
              stamp_and_return
                "Response object or status code must be provided for non-pretty JSON responses"
                resource response format_parameters
          end
      else
        new ← new_Response (resource_xml res (pretty format_parameters))
                           (Py.int_or status_code status.HTTP_200_OK)
                           (format format_parameters);
        mret (new, response)
  end.

End ResponseComposer.

(** ** The in-memory callbacks of the test module ([tests.py]) *)

(** The fields of the schema library's [HumanName] and [Patient] that the
    callbacks read or write; [patient_rest] stands for everything else a
    patient holds.  Each field may be [None]. *)
Record HumanName : Type := {
  family : option string;
  given : option (list string)
}.

Record PatientResource : Type := {
  patient_id : option string;
  patient_name : option (list HumanName);
  patient_rest : string
}.

(** Modelled from the spec: [FHIRResourceNotFoundError] is declared in the
    package's [exceptions] module, which is not among the sources; section 7
    has it as the not-found error.  [TypeError] is Python's own, raised by a
    [for] over [None]. *)
Inductive callback_exn : Type :=
| FHIRResourceNotFoundError
| TypeError (message : string).

Inductive outcome (A : Type) : Type :=
| Returns (a : A)
| Raises (e : callback_exn).

Arguments Returns {A} a.
Arguments Raises {A} e.

(** [_DATABASE]: a dictionary keeps its keys in the order they were first
    set, and the search walks its values in that order. *)
Definition Database : Type := list (string * PatientResource).

(** [_DATABASE.get(id_)] *)
Fixpoint database_get (id_ : string) (db : Database) : option PatientResource :=
  match db with
  | [] => None
  | (key, patient) :: rest =>
      if bool_decide (key = id_) then Some patient else database_get id_ rest
  end.

(** [_DATABASE[id_] = patient]: a key that is there keeps its place, a new
    one goes last. *)
Fixpoint database_set (id_ : string) (patient : PatientResource) (db : Database)
    : Database :=
  match db with
  | [] => [(id_, patient)]
  | (key, old) :: rest =>
      if bool_decide (key = id_) then (key, patient) :: rest
      else (key, old) :: database_set id_ patient rest
  end.

(** [Id(x)] for [x : str | None]: the string class applied to [None] gives
    the text "None". *)
Definition Id_of (x : option string) : string :=
  match x with
  | Some s => s
  | None => "None"
  end.

(** [patient_create]; [generated] is what [_generate_fhir_resource_id()]
    returns in this call. *)
Definition patient_create (generated : string) (resource : PatientResource)
    (db : Database) : outcome string * Database :=
  let patient := {| patient_id := Some generated;
                    patient_name := patient_name resource;
                    patient_rest := patient_rest resource |} in
  (Returns (Id_of (patient_id patient)), database_set generated patient db).

Definition patient_read (id_ : string) (db : Database) : outcome PatientResource :=
  match database_get id_ db with
  | Some patient => Returns patient
  | None => Raises FHIRResourceNotFoundError
  end.

Definition patient_update (id_ : string) (resource : PatientResource) (db : Database)
    : outcome string * Database :=
  if bool_decide (id_ ∉ db.*1) then (Raises FHIRResourceNotFoundError, db)
  else (Returns (Id_of (patient_id resource)), database_set id_ resource db).

(** The part of a search [Bundle] that [patient_search_type] fills in. *)
Record SearchBundle : Type := {
  bundle_type : string;
  total : nat;
  entry : list PatientResource
}.

(** The inner loop: the patient is appended once for each of its names with
    the family asked for. *)
Definition append_matches (family_ : option string) (patient : PatientResource)
    (names : list HumanName) (patients : list PatientResource) : list PatientResource :=
  fold_left (fun (patients : list PatientResource) name =>
               if bool_decide (family name = family_) then (patients ++ [patient])%list
               else patients)
            names patients.

(** The outer loop over [_DATABASE.values()]. *)
Fixpoint search_values (family_ : option string) (values : list PatientResource)
    (patients : list PatientResource) : outcome (list PatientResource) :=
  match values with
  | [] => Returns patients
  | patient :: rest =>
      match patient_name patient with
      | None => Raises (TypeError "'NoneType' object is not iterable")
      | Some names =>
          search_values family_ rest (append_matches family_ patient names patients)
      end
  end.

(** [patient_search_type]; the other three search parameters are not read. *)
Definition patient_search_type (family_ : option string) (db : Database)
    : outcome SearchBundle :=
  match search_values family_ db.*2 [] with
  | Returns patients =>
      Returns {| bundle_type := "searchset";
                 total := length patients;
                 entry := patients |}
  | Raises e => Raises e
  end.

(** ** Sample data *)

Definition Patient : ResourceClass :=
  {| class_name := "fhir.resources.patient.Patient"; get_resource_type := "Patient" |}.

Definition sample_interaction (k : InteractionKind) (options : gmap string Value)
    : TypeInteraction :=
  {| kind := k; resource_type := Patient;
     callable_ := UserFunction "callback"; route_options := options |}.

(** Resources that are plain strings, with serialisers that only mark what
    they were asked for. *)
#[local] Instance sample_serializers : Serializers string string := {
  resource_json r indent separators := "json(" +:+ r +:+ ")";
  resource_dict r := "dict(" +:+ r +:+ ")";
  resource_xml r pretty_print :=
    (if pretty_print then "pretty-xml(" else "xml(") +:+ r +:+ ")";
  JSONResponse_render d :=
    if bool_decide (d = "dict(dated)") then inr dumps_TypeError else inl d
}.

(** A schema library that, as the real one does, refuses the empty string
    for a code and for a string. *)
#[local] Instance sample_validators : SchemaValidators := {
  Code_validate s := Py.str_truthy s;
  String_validate s := Py.str_truthy s
}.

Definition sample_response : Response :=
  {| response_status_code := None;
     raw_headers := [("x-request-id", "7"); ("content-type", "text/plain")];
     body := "" |}.

Definition sample_request (m : string) (accept : list string) (query : list (string * string))
    : Request :=
  {| method := m; headers := map (fun v => ("accept", v)) accept; query_params := query |}.

(** ** Proof steps used more than once *)

(** Reads an entry that the route options leave alone off the display. *)
Ltac display_entry H :=
  unfold dict_display; rewrite lookup_union_r by exact H; reflexivity.

(** The status codes a merge of documented responses has. *)
Ltac responses_dom :=
  unfold _responses; cbn [fold_left]; rewrite !dom_union_L;
  unfold _ok, _created, _bad_request, _unauthorized, _not_found,
    _unprocessable_entity, Responses_of;
  rewrite !dom_singleton_L, dom_empty_L;
  unfold status.HTTP_200_OK, status.HTTP_201_CREATED, status.HTTP_400_BAD_REQUEST,
    status.HTTP_401_UNAUTHORIZED, status.HTTP_404_NOT_FOUND,
    status.HTTP_422_UNPROCESSABLE_ENTITY;
  set_solver.

(** The keys of a dictionary display with concrete entries. *)
Ltac display_keys :=
  unfold dict_display, dict_of_items; cbn [fold_left fst snd];
  rewrite dom_union_L, !dom_insert_L, dom_empty_L; unfold route_arg_keys;
  apply set_eq; intros ?;
  rewrite !elem_of_union, !elem_of_singleton, elem_of_empty; tauto.

(** One list of response functions is among another. *)
Ltac listed :=
  let Hin := fresh in
  intros ? Hin; rewrite !elem_of_cons, elem_of_nil in Hin;
  rewrite !elem_of_cons, elem_of_nil; tauto.

(** None of the response functions of a concrete list documents a code. *)
Ltac no_ok_later :=
  repeat (apply Forall_cons_2; [reflexivity|]); apply Forall_nil_2.

(** * Route metadata *)

(** *** Lookups in a dictionary display *)

Lemma dict_display_default entries (options : gmap string Value) k :
  options !! k = None ->
  dict_display entries options !! k = dict_of_items entries !! k.
Proof. intros Hk. unfold dict_display. by rewrite lookup_union_r. Qed.

Lemma dict_display_option entries (options : gmap string Value) k v :
  options !! k = Some v -> dict_display entries options !! k = Some v.
Proof. intros Hk. unfold dict_display. by apply lookup_union_Some_l. Qed.

(** An option always wins over the entry of the same key. *)
Lemma create_route_args_option i k v :
  route_options i !! k = Some v -> create_route_args i !! k = Some v.
Proof. apply dict_display_option. Qed.

Lemma update_route_args_option i k v :
  route_options i !! k = Some v -> update_route_args i !! k = Some v.
Proof. apply dict_display_option. Qed.

(** The f-string of the GET search path ends with an empty piece. *)
Lemma append_empty (s : string) : s +:+ "" = s.
Proof.
  induction s as [|c s IH]; [reflexivity|].
  change (String c s +:+ "") with (String c (s +:+ "")). by rewrite IH.
Qed.

(** *** The entries the builders compute *)

Section Entries.

Variable i : TypeInteraction.

Lemma create_route_args_path :
  not_overridden "path" i ->
  create_route_args i !! "path"
  = Some (VStr ("/" +:+ get_resource_type (resource_type i))).
Proof. intros Hk. unfold create_route_args. display_entry Hk. Qed.

Lemma create_route_args_status :
  not_overridden "status_code" i ->
  create_route_args i !! "status_code" = Some (VInt 201).
Proof. intros Hk. unfold create_route_args. display_entry Hk. Qed.

Lemma create_route_args_responses :
  not_overridden "responses" i ->
  create_route_args i !! "responses"
  = Some (VResponses (_responses i
      [_created; _bad_request; _unauthorized; _unprocessable_entity])).
Proof. intros Hk. unfold create_route_args. display_entry Hk. Qed.

Lemma read_route_args_path :
  not_overridden "path" i ->
  read_route_args i !! "path"
  = Some (VStr ("/" +:+ get_resource_type (resource_type i) +:+ "/{id}")).
Proof. intros Hk. unfold read_route_args. display_entry Hk. Qed.

Lemma read_route_args_status :
  not_overridden "status_code" i ->
  read_route_args i !! "status_code" = Some (VInt 200).
Proof. intros Hk. unfold read_route_args. display_entry Hk. Qed.

Lemma read_route_args_responses :
  not_overridden "responses" i ->
  read_route_args i !! "responses"
  = Some (VResponses (_responses i [_ok; _unauthorized; _not_found])).
Proof. intros Hk. unfold read_route_args. display_entry Hk. Qed.

Lemma search_type_route_args_path post :
  not_overridden "path" i ->
  search_type_route_args i post !! "path"
  = Some (VStr ("/" +:+ get_resource_type (resource_type i)
                    +:+ (if post then "/_search" else ""))).
Proof. intros Hk. unfold search_type_route_args. display_entry Hk. Qed.

Lemma search_type_route_args_status post :
  not_overridden "status_code" i ->
  search_type_route_args i post !! "status_code" = Some (VInt 200).
Proof. intros Hk. unfold search_type_route_args. display_entry Hk. Qed.

Lemma search_type_route_args_responses post :
  not_overridden "responses" i ->
  search_type_route_args i post !! "responses"
  = Some (VResponses (_responses i [_ok; _bad_request; _unauthorized])).
Proof. intros Hk. unfold search_type_route_args. display_entry Hk. Qed.

Lemma update_route_args_path :
  not_overridden "path" i ->
  update_route_args i !! "path"
  = Some (VStr ("/" +:+ get_resource_type (resource_type i) +:+ "/{id}")).
Proof. intros Hk. unfold update_route_args. display_entry Hk. Qed.

Lemma update_route_args_status :
  not_overridden "status_code" i ->
  update_route_args i !! "status_code" = Some (VInt 200).
Proof. intros Hk. unfold update_route_args. display_entry Hk. Qed.

Lemma update_route_args_responses :
  not_overridden "responses" i ->
  update_route_args i !! "responses"
  = Some (VResponses (_responses i
      [_ok; _bad_request; _unauthorized; _unprocessable_entity])).
Proof. intros Hk. unfold update_route_args. display_entry Hk. Qed.

End Entries.

(** *** The documented status codes of each kind of route *)

Lemma create_responses_dom i :
  dom (_responses i [_created; _bad_request; _unauthorized; _unprocessable_entity])
  = {[201; 400; 401; 422]}.
Proof. responses_dom. Qed.

Lemma read_responses_dom i :
  dom (_responses i [_ok; _unauthorized; _not_found]) = {[200; 401; 404]}.
Proof. responses_dom. Qed.

Lemma search_type_responses_dom i :
  dom (_responses i [_ok; _bad_request; _unauthorized]) = {[200; 400; 401]}.
Proof. responses_dom. Qed.

Lemma update_responses_dom i :
  dom (_responses i [_ok; _bad_request; _unauthorized; _unprocessable_entity])
  = {[200; 400; 401; 422]}.
Proof. responses_dom. Qed.

(** What [update_route_args] documents when the options leave it alone: the
    four codes of [update_responses_dom], 404 not among them. *)
Lemma update_route_args_documents i :
  not_overridden "responses" i ->
  exists r, update_route_args i !! "responses" = Some (VResponses r)
            /\ dom r = {[200; 400; 401; 422]}.
Proof.
  intros Hr. eexists. split.
  - by apply update_route_args_responses.
  - apply update_responses_dom.
Qed.

(** *** The documentation depends on the resource type and the kind only *)

Lemma responses_same_type_kind i1 i2 responses :
  resource_type i1 = resource_type i2 -> kind i1 = kind i2 ->
  Forall (fun response => response i1 = response i2) responses ->
  _responses i1 responses = _responses i2 responses.
Proof.
  intros _ _ Hall. unfold _responses.
  generalize (∅ : gmap Z ResponseDoc).
  induction Hall as [|response rest Hresponse _ IH]; intros merged; cbn [fold_left].
  - reflexivity.
  - rewrite Hresponse. apply IH.
Qed.

Lemma documented_same_type_kind i1 i2 :
  resource_type i1 = resource_type i2 -> kind i1 = kind i2 ->
  _ok i1 = _ok i2 /\ _created i1 = _created i2 /\ _bad_request i1 = _bad_request i2
  /\ _unauthorized i1 = _unauthorized i2 /\ _not_found i1 = _not_found i2
  /\ _unprocessable_entity i1 = _unprocessable_entity i2.
Proof.
  intros Ht Hk.
  unfold _ok, _created, _bad_request, _unauthorized, _not_found, _unprocessable_entity,
    label, is_search_type.
  rewrite Ht, Hk. repeat split.
Qed.


(** ** The table of section 4.3 *)

(** C1, as the code has it.  For every interaction whose route options set
    none of "path", "status_code" and "responses" (in particular for every
    Update interaction registered without such options), the route arguments
    of [update_route_args] have the path /{type}/{id} and the success status
    200, and the status codes documented are, 404 left aside, exactly 200 for
    the success and 400, 401 and 422 for the errors. *)
Theorem update_route_metadata (i : TypeInteraction) :
  not_overridden "path" i -> not_overridden "status_code" i ->
  not_overridden "responses" i ->
  update_route_args i !! "path"
    = Some (VStr ("/" +:+ get_resource_type (resource_type i) +:+ "/{id}"))
  /\ update_route_args i !! "status_code" = Some (VInt 200)
  /\ exists r, update_route_args i !! "responses" = Some (VResponses r)
               /\ dom r ∖ {[404]} = {[200; 400; 401; 422]}.
Proof.
  intros Hp Hs Hr. split; [|split].
  - by apply update_route_args_path.
  - by apply update_route_args_status.
  - destruct (update_route_args_documents i Hr) as (r & Hlookup & Hdom).
    exists r. split; [exact Hlookup|]. rewrite Hdom.
    apply set_eq. intros code.
    rewrite elem_of_difference, !elem_of_union, !elem_of_singleton. lia.
Qed.

Lemma update_route_metadata_witness :
  let i := sample_interaction UpdateInteraction {[ "include_in_schema" := VBool false ]} in
  update_route_args i !! "path" = Some (VStr "/Patient/{id}")
  /\ update_route_args i !! "status_code" = Some (VInt 200)
  /\ exists r, update_route_args i !! "responses" = Some (VResponses r)
               /\ dom r ∖ {[404]} = {[200; 400; 401; 422]}.
Proof.
  intros i.
  apply (update_route_metadata i); unfold not_overridden; vm_compute; reflexivity.
Defined.

(** C1 as the specification words it fails twice over: the plain Update
    interaction on Patient documents no 404 response, and an Update
    interaction whose options carry a status code gets that status, not 200. *)
Lemma update_route_metadata_counterexample :
  (exists r, update_route_args (sample_interaction UpdateInteraction ∅) !! "responses"
               = Some (VResponses r)
             /\ 404 ∉ dom r)
  /\ update_route_args
       (sample_interaction UpdateInteraction {[ "status_code" := VInt 202 ]})
       !! "status_code" = Some (VInt 202).
Proof.
  split.
  - destruct (update_route_args_documents (sample_interaction UpdateInteraction ∅))
      as (r & Hlookup & Hdom); [vm_compute; reflexivity|].
    exists r. split; [exact Hlookup|]. rewrite Hdom.
    rewrite !elem_of_union, !elem_of_singleton. lia.
  - apply dict_display_option. reflexivity.
Qed.

(** C2, as the code has it.  For every interaction whose route options set
    none of "path", "status_code" and "responses": create has the path
    /{type}, the status 201 and documents 201 with the errors 400, 401, 422;
    read has /{type}/{id}, 200 and documents 200 with 401, 404; search-type
    has /{type} for GET and /{type}/_search for POST, 200 and documents 200
    with 400, 401. *)
Theorem route_args_table (i : TypeInteraction) :
  not_overridden "path" i -> not_overridden "status_code" i ->
  not_overridden "responses" i ->
  let type := get_resource_type (resource_type i) in
  (create_route_args i !! "path" = Some (VStr ("/" +:+ type))
   /\ create_route_args i !! "status_code" = Some (VInt 201)
   /\ exists r, create_route_args i !! "responses" = Some (VResponses r)
                /\ dom r = {[201; 400; 401; 422]})
  /\ (read_route_args i !! "path" = Some (VStr ("/" +:+ type +:+ "/{id}"))
      /\ read_route_args i !! "status_code" = Some (VInt 200)
      /\ exists r, read_route_args i !! "responses" = Some (VResponses r)
                   /\ dom r = {[200; 401; 404]})
  /\ (search_type_route_args i false !! "path" = Some (VStr ("/" +:+ type))
      /\ search_type_route_args i true !! "path"
         = Some (VStr ("/" +:+ type +:+ "/_search"))
      /\ forall post,
           search_type_route_args i post !! "status_code" = Some (VInt 200)
           /\ exists r, search_type_route_args i post !! "responses" = Some (VResponses r)
                        /\ dom r = {[200; 400; 401]}).
Proof.
  intros Hp Hs Hr type. subst type. split; [|split]; (split; [|split]).
  - by apply create_route_args_path.
  - by apply create_route_args_status.
  - eexists. split; [by apply create_route_args_responses|apply create_responses_dom].
  - by apply read_route_args_path.
  - by apply read_route_args_status.
  - eexists. split; [by apply read_route_args_responses|apply read_responses_dom].
  - rewrite (search_type_route_args_path i false) by exact Hp.
    by rewrite append_empty.
  - by apply (search_type_route_args_path i true).
  - intros post. split; [by apply search_type_route_args_status|].
    eexists. split;
      [by apply search_type_route_args_responses|apply search_type_responses_dom].
Qed.

Lemma route_args_table_witness :
  let i := sample_interaction SearchTypeInteraction {[ "deprecated" := VBool true ]} in
  create_route_args i !! "path" = Some (VStr "/Patient")
  /\ read_route_args i !! "path" = Some (VStr "/Patient/{id}")
  /\ search_type_route_args i false !! "path" = Some (VStr "/Patient")
  /\ search_type_route_args i true !! "path" = Some (VStr "/Patient/_search")
  /\ create_route_args i !! "status_code" = Some (VInt 201).
Proof.
  intros i.
  destruct (route_args_table i) as ((Hc & Hcs & _) & (Hr & _) & (Hg & Hpost & _));
    [unfold not_overridden; vm_compute; reflexivity ..|].
  exact (conj Hc (conj Hr (conj Hg (conj Hpost Hcs)))).
Defined.

(** C2 as the specification words it fails at a Create interaction whose
    route options carry a status code: the route is built with that status,
    not with 201. *)
Lemma route_args_table_counterexample :
  create_route_args (sample_interaction CreateInteraction {[ "status_code" := VInt 202 ]})
    !! "status_code" = Some (VInt 202).
Proof. apply dict_display_option. reflexivity. Qed.

(** C7, as the code has it.  Two interactions of the same resource type and
    kind whose route options set neither "status_code" nor "responses" get the
    same success status and the same documented responses from every one of
    the route builders, whatever their callbacks and their other options. *)
Theorem status_and_responses_of_type_and_kind (i1 i2 : TypeInteraction) :
  resource_type i1 = resource_type i2 -> kind i1 = kind i2 ->
  not_overridden "status_code" i1 -> not_overridden "responses" i1 ->
  not_overridden "status_code" i2 -> not_overridden "responses" i2 ->
  same_status_and_responses (create_route_args i1) (create_route_args i2)
  /\ same_status_and_responses (read_route_args i1) (read_route_args i2)
  /\ (forall post, same_status_and_responses (search_type_route_args i1 post)
                                             (search_type_route_args i2 post))
  /\ same_status_and_responses (update_route_args i1) (update_route_args i2).
Proof.
  intros Ht Hk Hs1 Hr1 Hs2 Hr2.
  destruct (documented_same_type_kind i1 i2 Ht Hk)
    as (Hok & Hcreated & Hbad & Hunauth & Hnf & Hunproc).
  assert (forall rs, Forall (fun response => response i1 = response i2) rs ->
                     _responses i1 rs = _responses i2 rs) as Hsame
    by (intros rs; by apply responses_same_type_kind).
  unfold same_status_and_responses.
  split; [|split; [|split]]; try intros post.
  - rewrite !create_route_args_status, !create_route_args_responses by assumption.
    rewrite (Hsame [_created; _bad_request; _unauthorized; _unprocessable_entity]).
    + split; reflexivity.
    + repeat (apply Forall_cons_2; [assumption|]). apply Forall_nil_2.
  - rewrite !read_route_args_status, !read_route_args_responses by assumption.
    rewrite (Hsame [_ok; _unauthorized; _not_found]).
    + split; reflexivity.
    + repeat (apply Forall_cons_2; [assumption|]). apply Forall_nil_2.
  - rewrite !search_type_route_args_status, !search_type_route_args_responses
      by assumption.
    rewrite (Hsame [_ok; _bad_request; _unauthorized]).
    + split; reflexivity.
    + repeat (apply Forall_cons_2; [assumption|]). apply Forall_nil_2.
  - rewrite !update_route_args_status, !update_route_args_responses by assumption.
    rewrite (Hsame [_ok; _bad_request; _unauthorized; _unprocessable_entity]).
    + split; reflexivity.
    + repeat (apply Forall_cons_2; [assumption|]). apply Forall_nil_2.
Qed.

Lemma status_and_responses_of_type_and_kind_witness :
  let i1 := sample_interaction CreateInteraction ∅ in
  let i2 := {| kind := CreateInteraction; resource_type := Patient;
               callable_ := UserFunction "another_callback";
               route_options := {[ "include_in_schema" := VBool false ]} |} in
  same_status_and_responses (create_route_args i1) (create_route_args i2).
Proof.
  intros i1 i2.
  destruct (status_and_responses_of_type_and_kind i1 i2) as (Hcreate & _);
    [unfold not_overridden; vm_compute; reflexivity ..|exact Hcreate].
Defined.

(** C7 as the specification words it fails: two Create interactions on
    Patient with the same callback, one with a status code among its route
    options, get different success statuses. *)
Lemma status_and_responses_counterexample :
  let i1 := sample_interaction CreateInteraction ∅ in
  let i2 := sample_interaction CreateInteraction {[ "status_code" := VInt 202 ]} in
  resource_type i1 = resource_type i2 /\ kind i1 = kind i2
  /\ create_route_args i1 !! "status_code" = Some (VInt 201)
  /\ create_route_args i2 !! "status_code" = Some (VInt 202)
  /\ ~ same_status_and_responses (create_route_args i1) (create_route_args i2).
Proof.
  intros i1 i2.
  assert (create_route_args i1 !! "status_code" = Some (VInt 201)) as H1
    by (apply create_route_args_status; vm_compute; reflexivity).
  assert (create_route_args i2 !! "status_code" = Some (VInt 202)) as H2
    by (apply dict_display_option; reflexivity).
  split; [reflexivity|]. split; [reflexivity|].
  split; [exact H1|]. split; [exact H2|].
  intros [Hstatus _]. rewrite H1, H2 in Hstatus. discriminate.
Qed.

(** * Format negotiation *)

(** ** The alias table *)

(** The table maps the three JSON aliases and the four XML aliases, spelled
    exactly so, to the two canonical tokens, and holds nothing else. *)
Lemma content_types_lookup (token v : string) :
  _CONTENT_TYPES !! token = Some v <->
  (token ∈ ["json"; "application/json"; "application/fhir+json"]
   /\ v = "application/fhir+json")
  \/ (token ∈ ["xml"; "text/xml"; "application/xml"; "application/fhir+xml"]
      /\ v = "application/fhir+xml").
Proof.
  unfold _CONTENT_TYPES, dict_of_items. cbn [fold_left fst snd].
  rewrite !lookup_insert_Some, lookup_empty.
  rewrite !elem_of_cons, !elem_of_nil.
  split.
  - intros Hcases.
    repeat (destruct Hcases as [[<- <-]|[_ Hcases]]; [tauto|]). discriminate.
  - intros [[Htoken ->]|[Htoken ->]].
    + destruct Htoken as [->|[->|[->|[]]]];
        repeat (first [left; split; [reflexivity|reflexivity]
                      |right; split; [discriminate|]]).
    + destruct Htoken as [->|[->|[->|[->|[]]]]];
        repeat (first [left; split; [reflexivity|reflexivity]
                      |right; split; [discriminate|]]).
Qed.

Lemma content_types_canonical (token v : string) :
  _CONTENT_TYPES !! token = Some v ->
  v = "application/fhir+json" \/ v = "application/fhir+xml".
Proof. rewrite content_types_lookup. tauto. Qed.

Lemma content_types_truthy (token v : string) :
  _CONTENT_TYPES !! token = Some v -> Py.str_truthy v = true.
Proof. intros Hv. by destruct (content_types_canonical _ _ Hv) as [-> | ->]. Qed.

(** The table compares tokens exactly: other spellings have no entry. *)
Example content_types_case_sensitive :
  _CONTENT_TYPES !! "JSON" = None /\ _CONTENT_TYPES !! "Application/XML" = None
  /\ _CONTENT_TYPES !! "application/fhir+xml, text/html" = None.
Proof. vm_compute. repeat split. Qed.

(** ** The scan of the Accept tokens *)

Lemma first_content_type_found (skipped : list string) token rest v :
  no_alias skipped -> _CONTENT_TYPES !! token = Some v ->
  first_content_type (skipped ++ token :: rest) = Some v.
Proof.
  intros Hskipped Hv.
  induction Hskipped as [|t ts Ht _ IH]; cbn [app first_content_type].
  - by rewrite Hv; cbn [Py.opt_str_truthy]; rewrite (content_types_truthy _ _ Hv).
  - by rewrite Ht.
Qed.

Lemma first_content_type_None (tokens : list string) :
  first_content_type tokens = None <-> no_alias tokens.
Proof.
  unfold no_alias. induction tokens as [|t ts IH]; cbn [first_content_type].
  - split; [intros _; apply Forall_nil_2|reflexivity].
  - rewrite Forall_cons. destruct (_CONTENT_TYPES !! t) as [v|] eqn:Ht.
    + cbn [Py.opt_str_truthy]. rewrite (content_types_truthy _ _ Ht).
      split; [discriminate|intros [? _]; discriminate].
    + cbn [Py.opt_str_truthy]. rewrite IH. tauto.
Qed.

Lemma first_content_type_Some (tokens : list string) v :
  first_content_type tokens = Some v ->
  exists token, token ∈ tokens /\ _CONTENT_TYPES !! token = Some v.
Proof.
  induction tokens as [|t ts IH]; cbn [first_content_type]; [discriminate|].
  destruct (Py.opt_str_truthy (_CONTENT_TYPES !! t)).
  - intros Hv. exists t. split; [apply list_elem_of_here|exact Hv].
  - intros Hv. destruct (IH Hv) as (token & Hin & Htoken).
    exists token. split; [by apply list_elem_of_further|exact Htoken].
Qed.

(** The header decides nothing exactly when the request is not a POST or
    none of its Accept tokens has an alias. *)
Lemma format_from_accept_header_None (request : Request) :
  format_from_accept_header request = None <->
  method request <> "POST" \/ no_alias (accept_tokens request).
Proof.
  unfold format_from_accept_header, accept_tokens. case_bool_decide as Hm.
  - rewrite first_content_type_None. tauto.
  - tauto.
Qed.

(** ** [from_request], by where the format comes from *)

Lemma pretty_flag (request : Request) :
  QueryParams_get "_pretty" "false" (query_params request) = "true"
  <-> query_value "_pretty" request = Some "true".
Proof.
  unfold QueryParams_get, query_value.
  destruct (dict_of_items (query_params request) !! "_pretty") as [v|].
  - split; [by intros ->|by intros [= ->]].
  - split; discriminate.
Qed.

Lemma format_token (request : Request) :
  QueryParams_get "_format" "json" (query_params request)
  = default "json" (query_value "_format" request).
Proof.
  unfold QueryParams_get, query_value.
  by destruct (dict_of_items (query_params request) !! "_format").
Qed.

Lemma from_request_header (request : Request) raise_exception v :
  format_from_accept_header request = Some v ->
  from_request request raise_exception
  = Ok {| format := v; pretty := pretty_requested request |}.
Proof.
  intros Hheader. unfold from_request. rewrite Hheader.
  unfold format_from_accept_header in Hheader.
  case_bool_decide; [|discriminate].
  destruct (first_content_type_Some _ _ Hheader) as (token & _ & Htoken).
  cbn [unless_set]. rewrite (content_types_truthy _ _ Htoken). cbn.
  do 2 f_equal. apply bool_decide_ext, pretty_flag.
Qed.

Lemma from_request_query (request : Request) raise_exception :
  format_from_accept_header request = None ->
  from_request request raise_exception
  = match _CONTENT_TYPES !! default "json" (query_value "_format" request) with
    | Some v => Ok {| format := v; pretty := pretty_requested request |}
    | None =>
        if raise_exception
        then Raise (FHIRGeneralError 400 "error" "structure"
               "Invalid response format specified for '_format' parameter")
        else Ok {| format := "application/fhir+json";
                   pretty := pretty_requested request |}
    end.
Proof.
  intros Hheader. unfold from_request. rewrite Hheader, format_token.
  cbn [unless_set]. unfold dict_getitem.
  destruct (_CONTENT_TYPES !! default "json" (query_value "_format" request));
    [|destruct raise_exception]; cbn; try reflexivity;
    do 2 f_equal; apply bool_decide_ext, pretty_flag.
Qed.

(** ** The header lines and the query, as the request holds them *)

Lemma getlist_app (key : string) (raw1 raw2 : list (string * string)) :
  Headers_getlist key (raw1 ++ raw2)
  = (Headers_getlist key raw1 ++ Headers_getlist key raw2)%list.
Proof. unfold Headers_getlist. by rewrite filter_app, fmap_app. Qed.

Lemma getlist_accept_line (token : string) (raw : list (string * string)) :
  Headers_getlist "Accept" (("accept", token) :: raw)
  = token :: Headers_getlist "Accept" raw.
Proof. unfold Headers_getlist. by rewrite filter_cons_True by reflexivity. Qed.

Lemma getlist_accept_elem (token : string) (raw : list (string * string)) :
  token ∈ Headers_getlist "Accept" raw <-> ("accept", token) ∈ raw.
Proof.
  unfold Headers_getlist. rewrite list_elem_of_fmap. split.
  - intros ([name value] & -> & Hin). apply list_elem_of_filter in Hin as [Hname Hin].
    cbn in Hname. by subst name.
  - intros Hin. exists ("accept", token). split; [reflexivity|].
    apply list_elem_of_filter. by split.
Qed.

Lemma no_alias_lines (raw : list (string * string)) :
  (forall value, ("accept", value) ∈ raw -> _CONTENT_TYPES !! value = None) ->
  no_alias (Headers_getlist "Accept" raw).
Proof.
  intros Hlines. apply Forall_forall. intros token Htoken.
  apply Hlines. by apply getlist_accept_elem.
Qed.

Lemma dict_of_items_skip {V : Type} (items : list (string * V)) (d : gmap string V) key :
  key ∉ items.*1 ->
  fold_left (fun d kv => <[ kv.1 := kv.2 ]> d) items d !! key = d !! key.
Proof.
  revert d. induction items as [|[k v] items IH]; intros d; cbn [fold_left fmap list_fmap].
  - reflexivity.
  - rewrite not_elem_of_cons. intros [Hne Hlater].
    rewrite IH by exact Hlater. cbn. by rewrite lookup_insert_ne.
Qed.

(** The value of a query parameter is the last one the query gives it, and
    there is none when the query does not name it. *)
Lemma query_value_last (request : Request) (earlier later : list (string * string))
    key value :
  query_params request = (earlier ++ (key, value) :: later)%list ->
  key ∉ later.*1 -> query_value key request = Some value.
Proof.
  intros Hquery Hlater. unfold query_value, dict_of_items.
  rewrite Hquery, fold_left_app. cbn [fold_left].
  rewrite dict_of_items_skip by exact Hlater. cbn. apply lookup_insert_eq.
Qed.

Lemma query_value_absent (request : Request) key :
  key ∉ (query_params request).*1 -> query_value key request = None.
Proof.
  intros Habsent. unfold query_value, dict_of_items.
  by rewrite dict_of_items_skip by exact Habsent.
Qed.

(** ** The resolution algorithm *)

(** C3, as the code has it.  On a POST the values of the header lines named
    accept are scanned in the order of the lines, the value of a line taken
    whole, and the first one with an entry in the alias table gives the
    format, whatever the query says about _format; lines of other names are
    not looked at.  On another method, or when no such value has an entry,
    the format is the entry of the _format query parameter, "json" when the
    query has none.  The pretty flag of the result is true exactly when the
    raw value of _pretty is the string "true".  The value of a query
    parameter is the last one the query gives it. *)
Theorem format_resolution (request : Request) (raise_exception : bool) :
  (forall (earlier later : list (string * string)) token v,
     method request = "POST" ->
     headers request = (earlier ++ ("accept", token) :: later)%list ->
     (forall value, ("accept", value) ∈ earlier -> _CONTENT_TYPES !! value = None) ->
     _CONTENT_TYPES !! token = Some v ->
     from_request request raise_exception
     = Ok {| format := v; pretty := pretty_requested request |})
  /\ (forall v,
        method request <> "POST"
        \/ (forall value, ("accept", value) ∈ headers request ->
               _CONTENT_TYPES !! value = None) ->
        _CONTENT_TYPES !! default "json" (query_value "_format" request) = Some v ->
        from_request request raise_exception
        = Ok {| format := v; pretty := pretty_requested request |})
  /\ (forall fp,
        from_request request raise_exception = Ok fp ->
        pretty fp = true <-> query_value "_pretty" request = Some "true")
  /\ (forall key,
        (forall (earlier later : list (string * string)) value,
           query_params request = (earlier ++ (key, value) :: later)%list ->
           key ∉ later.*1 -> query_value key request = Some value)
        /\ (key ∉ (query_params request).*1 -> query_value key request = None)).
Proof.
  split; [|split; [|split]].
  - intros earlier later token v Hm Hlines Hearlier Hv.
    apply from_request_header.
    unfold format_from_accept_header. rewrite bool_decide_true by exact Hm.
    rewrite Hlines, getlist_app, getlist_accept_line.
    apply first_content_type_found; [by apply no_alias_lines|exact Hv].
  - intros v Hheader Hv.
    assert (format_from_accept_header request = None) as Hnone.
    { apply format_from_accept_header_None.
      destruct Hheader as [Hm|Hlines]; [by left|right]. by apply no_alias_lines. }
    rewrite (from_request_query _ _ Hnone), Hv. reflexivity.
  - intros fp Hfp.
    assert (pretty fp = pretty_requested request) as ->.
    { destruct (format_from_accept_header request) as [v|] eqn:Hheader.
      - rewrite (from_request_header _ _ _ Hheader) in Hfp. by injection Hfp as <-.
      - rewrite (from_request_query _ _ Hheader) in Hfp.
        destruct (_CONTENT_TYPES !! _); [|destruct raise_exception];
          try discriminate; by injection Hfp as <-. }
    apply bool_decide_eq_true.
  - intros key. split.
    + intros earlier later value. apply query_value_last.
    + apply query_value_absent.
Qed.

Lemma format_resolution_witness :
  let posted :=
    {| method := "POST";
       headers := [ ("content-type", "json"); ("accept", "text/html");
                    ("accept", "application/fhir+xml"); ("accept", "json") ];
       query_params := [("_pretty", "false"); ("_format", "json"); ("_pretty", "true")] |} in
  let fetched := sample_request "GET" ["application/fhir+xml"]
                   [("_format", "xml"); ("_pretty", "True")] in
  from_request posted true
  = Ok {| format := "application/fhir+xml"; pretty := pretty_requested posted |}
  /\ from_request fetched true
     = Ok {| format := "application/fhir+xml"; pretty := pretty_requested fetched |}
  /\ (pretty {| format := "application/fhir+xml"; pretty := true |} = true
      <-> query_value "_pretty" posted = Some "true")
  /\ query_value "_pretty" posted = Some "true".
Proof.
  intros posted fetched. split; [|split; [|split]].
  - destruct (format_resolution posted true) as (Hheader & _).
    apply (Hheader [("content-type", "json"); ("accept", "text/html")]
             [("accept", "json")] "application/fhir+xml").
    + reflexivity.
    + reflexivity.
    + intros value Hin. rewrite !elem_of_cons, elem_of_nil in Hin.
      destruct Hin as [Heq|[Heq|[]]]; [discriminate Heq|].
      injection Heq as ->. vm_compute. reflexivity.
    + vm_compute. reflexivity.
  - destruct (format_resolution fetched true) as (_ & Hquery & _).
    apply Hquery.
    + left. discriminate.
    + vm_compute. reflexivity.
  - destruct (format_resolution posted true) as (_ & _ & Hpretty & _).
    apply Hpretty. vm_compute. reflexivity.
  - destruct (format_resolution posted true) as (_ & _ & _ & Hquery).
    apply (proj1 (Hquery "_pretty") [("_pretty", "false"); ("_format", "json")] []).
    + reflexivity.
    + apply not_elem_of_nil.
Defined.

(** C3 as the specification words it fails at a POST whose one Accept line
    lists two content types: the second one listed has an entry in the alias
    table, but the line is looked up whole, has none, and the format comes
    from the query. *)
Lemma format_resolution_counterexample :
  from_request
    {| method := "POST";
       headers := [("accept", "text/html, application/fhir+xml")];
       query_params := [("_format", "json")] |}
    true
  = Ok {| format := "application/fhir+json"; pretty := false |}.
Proof. vm_compute. reflexivity. Qed.

(** In lenient mode [from_request] returns on every request. *)
Lemma from_request_lenient_returns (request : Request) :
  exists fp, from_request request false = Ok fp.
Proof.
  destruct (format_from_accept_header request) as [v|] eqn:Hheader.
  - rewrite (from_request_header _ _ _ Hheader). by eexists.
  - rewrite (from_request_query _ _ Hheader).
    destruct (_CONTENT_TYPES !! _); by eexists.
Qed.

(** C4.  When no Accept token gave the format and the _format token has no
    entry in the alias table, [from_request] raises exactly in strict mode,
    and what it raises then carries the status 400 and the issue code
    "structure"; in lenient mode it returns parameters with the format
    "application/fhir+json". *)
Theorem from_request_unknown_format (request : Request) (raise_exception : bool) :
  method request <> "POST" \/ no_alias (accept_tokens request) ->
  _CONTENT_TYPES !! default "json" (query_value "_format" request) = None ->
  ((exists e, from_request request raise_exception = Raise e) <-> raise_exception = true)
  /\ (raise_exception = true ->
      exists severity details_text,
        from_request request raise_exception
        = Raise (FHIRGeneralError 400 severity "structure" details_text))
  /\ (raise_exception = false ->
      from_request request raise_exception
      = Ok {| format := "application/fhir+json"; pretty := pretty_requested request |}).
Proof.
  intros Hheader Htoken. apply format_from_accept_header_None in Hheader.
  rewrite (from_request_query _ _ Hheader), Htoken.
  destruct raise_exception; (split; [|split]).
  - split; [reflexivity|]. intros _. by eexists.
  - intros _. by do 2 eexists.
  - discriminate.
  - split; [|discriminate]. intros [e He]. discriminate.
  - discriminate.
  - reflexivity.
Qed.

Lemma from_request_unknown_format_witness :
  let request := sample_request "GET" ["application/fhir+xml"] [("_format", "bogus")] in
  (exists severity details_text,
     from_request request true
     = Raise (FHIRGeneralError 400 severity "structure" details_text))
  /\ from_request request false
     = Ok {| format := "application/fhir+json"; pretty := pretty_requested request |}.
Proof.
  intros request. split.
  - destruct (from_request_unknown_format request true) as (_ & Hstrict & _).
    + left. discriminate.
    + vm_compute. reflexivity.
    + apply Hstrict. reflexivity.
  - destruct (from_request_unknown_format request false) as (_ & _ & Hlenient).
    + left. discriminate.
    + vm_compute. reflexivity.
    + apply Hlenient. reflexivity.
Defined.

(** C6.  Whatever [from_request] returns, in strict or in lenient mode and
    whether the header or the query decided, has one of the two canonical
    tokens as its format. *)
Theorem from_request_canonical (request : Request) (raise_exception : bool)
    (fp : FormatParameters) :
  from_request request raise_exception = Ok fp ->
  format fp = "application/fhir+json" \/ format fp = "application/fhir+xml".
Proof.
  intros Hfp.
  destruct (format_from_accept_header request) as [v|] eqn:Hheader.
  - rewrite (from_request_header _ _ _ Hheader) in Hfp. injection Hfp as <-.
    unfold format_from_accept_header in Hheader.
    case_bool_decide; [|discriminate].
    destruct (first_content_type_Some _ _ Hheader) as (token & _ & Htoken).
    exact (content_types_canonical _ _ Htoken).
  - rewrite (from_request_query _ _ Hheader) in Hfp.
    destruct (_CONTENT_TYPES !! _) as [v|] eqn:Htoken.
    + injection Hfp as <-. exact (content_types_canonical _ _ Htoken).
    + destruct raise_exception; [discriminate|]. injection Hfp as <-. by left.
Qed.

Lemma from_request_canonical_witness :
  let request := sample_request "POST" ["application/xml"] [("_format", "bogus")] in
  let fp := {| format := "application/fhir+xml"; pretty := false |} in
  from_request request true = Ok fp
  /\ (format fp = "application/fhir+json" \/ format fp = "application/fhir+xml").
Proof.
  intros request fp.
  assert (from_request request true = Ok fp) as Hfp by (vm_compute; reflexivity).
  split; [exact Hfp|]. exact (from_request_canonical request true fp Hfp).
Defined.

(** ** The scenarios of the specification's section 8 *)

Example negotiation_post_header_wins :
  from_request (sample_request "POST" ["application/fhir+xml"] [("_format", "json")]) true
  = Ok {| format := "application/fhir+xml"; pretty := false |}.
Proof. vm_compute. reflexivity. Qed.

Example negotiation_get_ignores_header :
  from_request (sample_request "GET" ["application/fhir+xml"] [("_format", "json")]) true
  = Ok {| format := "application/fhir+json"; pretty := false |}.
Proof. vm_compute. reflexivity. Qed.

Example negotiation_get_xml_pretty :
  from_request (sample_request "GET" [] [("_format", "xml"); ("_pretty", "true")]) true
  = Ok {| format := "application/fhir+xml"; pretty := true |}.
Proof. vm_compute. reflexivity. Qed.

Example negotiation_bogus_strict :
  from_request (sample_request "GET" [] [("_format", "bogus")]) true
  = Raise (FHIRGeneralError 400 "error" "structure"
             "Invalid response format specified for '_format' parameter").
Proof. vm_compute. reflexivity. Qed.

Example negotiation_bogus_lenient :
  from_request (sample_request "GET" [] [("_format", "bogus")]) false
  = Ok {| format := "application/fhir+json"; pretty := false |}.
Proof. vm_compute. reflexivity. Qed.

(** A header line that lists several types is one token, and has no entry. *)
Example negotiation_post_list_in_one_line :
  from_request
    (sample_request "POST" ["application/fhir+xml, text/html"] [("_format", "json")]) true
  = Ok {| format := "application/fhir+json"; pretty := false |}.
Proof. vm_compute. reflexivity. Qed.

(** * Response composition *)

(** ** Setting a header of the caller's response *)

Lemma filter_other_key (key other : string) (raw : list (string * string)) :
  other <> key ->
  filter (fun item => item.1 = other) (filter (fun later => later.1 <> key) raw)
  = filter (fun item => item.1 = other) raw.
Proof.
  intros Hne. induction raw as [|item raw IH]; [reflexivity|].
  destruct (decide (item.1 = key)) as [Hkey|Hkey].
  - rewrite (filter_cons_False (fun later => later.1 <> key)) by tauto.
    rewrite (filter_cons_False (fun it => it.1 = other)) by congruence. exact IH.
  - rewrite (filter_cons_True (fun later => later.1 <> key)) by exact Hkey.
    destruct (decide (item.1 = other)) as [Hother|Hother].
    + rewrite !(filter_cons_True (fun it => it.1 = other)) by exact Hother.
      by rewrite IH.
    + rewrite !(filter_cons_False (fun it => it.1 = other)) by exact Hother.
      exact IH.
Qed.

Lemma filter_same_key (key : string) (raw : list (string * string)) :
  filter (fun item => item.1 = key) (filter (fun later => later.1 <> key) raw) = [].
Proof.
  induction raw as [|item raw IH]; [reflexivity|].
  destruct (decide (item.1 = key)) as [Hkey|Hkey].
  - by rewrite (filter_cons_False (fun later => later.1 <> key)) by tauto.
  - rewrite (filter_cons_True (fun later => later.1 <> key)) by exact Hkey.
    by rewrite (filter_cons_False (fun it => it.1 = key)) by exact Hkey.
Qed.

Lemma replace_header_other (key value other : string) (raw : list (string * string)) :
  other <> key ->
  filter (fun item => item.1 = other) (replace_header key value raw)
  = filter (fun item => item.1 = other) raw.
Proof.
  intros Hne. induction raw as [|item raw IH]; cbn [replace_header]; [reflexivity|].
  case_bool_decide as Hkey.
  - rewrite !(filter_cons_False (fun it => it.1 = other)) by (cbn; congruence).
    by apply filter_other_key.
  - destruct (decide (item.1 = other)) as [Hother|Hother].
    + rewrite !(filter_cons_True (fun it => it.1 = other)) by exact Hother.
      by rewrite IH.
    + by rewrite !(filter_cons_False (fun it => it.1 = other)) by exact Hother.
Qed.

Lemma replace_header_same (key value : string) (raw : list (string * string)) :
  key ∈ raw.*1 ->
  filter (fun item => item.1 = key) (replace_header key value raw) = [(key, value)].
Proof.
  induction raw as [|item raw IH]; cbn [replace_header fmap list_fmap].
  - intros Hin. by apply elem_of_nil in Hin.
  - intros Hin. case_bool_decide as Hkey.
    + rewrite (filter_cons_True (fun it => it.1 = key)) by reflexivity.
      by rewrite filter_same_key.
    + rewrite (filter_cons_False (fun it => it.1 = key)) by exact Hkey.
      apply IH. apply elem_of_cons in Hin as [Hhere|Hlater]; [congruence|exact Hlater].
Qed.

Lemma filter_absent_key (key : string) (raw : list (string * string)) :
  key ∉ raw.*1 -> filter (fun item => item.1 = key) raw = [].
Proof.
  induction raw as [|item raw IH]; [reflexivity|].
  cbn [fmap list_fmap]. rewrite not_elem_of_cons. intros [Hhere Hlater].
  rewrite filter_cons_False by congruence. by apply IH.
Qed.

(** After [headers[key] = value] the header [key] has the one value. *)
Lemma getlist_setitem_same (key value : string) (raw : list (string * string)) :
  Headers_getlist key (MutableHeaders_setitem key value raw) = [value].
Proof.
  unfold Headers_getlist, MutableHeaders_setitem. case_bool_decide as Hin.
  - by rewrite replace_header_same.
  - rewrite filter_app, (filter_absent_key _ _ Hin).
    by rewrite (filter_cons_True (fun it => it.1 = Py.lower key)) by reflexivity.
Qed.

(** Headers of another name keep their values. *)
Lemma getlist_setitem_other (key value other : string) (raw : list (string * string)) :
  Py.lower other <> Py.lower key ->
  Headers_getlist other (MutableHeaders_setitem key value raw)
  = Headers_getlist other raw.
Proof.
  intros Hne. unfold Headers_getlist, MutableHeaders_setitem. case_bool_decide as Hin.
  - by rewrite replace_header_other.
  - rewrite filter_app.
    rewrite (filter_cons_False (fun it => it.1 = Py.lower other)) by (cbn; congruence).
    by rewrite filter_nil, app_nil_r.
Qed.

(** ** [x or default] on status codes *)



(** ** The cases of [format_response] *)


Section ComposerProperties.

Context {Resource Dict : Type} `{Serializers Resource Dict}.

Implicit Types (res : Resource) (resource : option Resource)
  (response : option Response) (status_code : option Z) (fp : FormatParameters).

(** The branch that writes to the caller's response, once that is there. *)
Lemma stamp_and_return_supplied message resource sink fp :
  Py.latin1_encodable (format fp) = true ->
  stamp_and_return (Dict:=Dict) message resource (Some sink) fp
  = Ok (ReturnResource resource, Some (set_header sink "Content-Type" (format fp))).
Proof. intros Hfp. unfold stamp_and_return. by rewrite Hfp. Qed.


Lemma format_response_absent response status_code fp :
  format_response None response status_code fp
  = stamp_and_return "Response object must be provided for a null resource"
      None response fp.
Proof. reflexivity. Qed.

Lemma format_response_pretty_json res response status_code fp :
  format fp = "application/fhir+json" -> pretty fp = true ->
  format_response (Some res) response status_code fp
  = Ok (ReturnResponse (resource_json res 2 (", ", ": "))
                       (Py.int_or status_code 200) (format fp),
        response).
Proof.
  intros Hformat Hpretty. unfold format_response, new_Response.
  rewrite bool_decide_true, Hpretty by exact Hformat.
  by rewrite Hformat.
Qed.

Lemma format_response_json_with_status res response code fp body_ :
  format fp = "application/fhir+json" -> pretty fp = false -> code <> 0 ->
  JSONResponse_render (resource_dict res) = inl body_ ->
  format_response (Some res) response (Some code) fp
  = Ok (ReturnJSONResponse (resource_dict res) code (format fp), response).
Proof.
  intros Hformat Hpretty Hcode Hrender. unfold format_response, new_JSONResponse.
  rewrite bool_decide_true, Hpretty by exact Hformat.
  rewrite (proj2 (Z.eqb_neq code 0) Hcode), Hrender. by rewrite Hformat.
Qed.


Lemma format_response_json_default res response status_code fp :
  format fp = "application/fhir+json" -> pretty fp = false ->
  status_code = None \/ status_code = Some 0 ->
  format_response (Some res) response status_code fp
  = stamp_and_return
      "Response object or status code must be provided for non-pretty JSON responses"
      (Some res) response fp.
Proof.
  intros Hformat Hpretty Hstatus. unfold format_response.
  rewrite bool_decide_true, Hpretty by exact Hformat.
  by destruct Hstatus as [-> | ->].
Qed.

Lemma format_response_xml res response status_code fp :
  format fp <> "application/fhir+json" ->
  Py.latin1_encodable (format fp) = true ->
  format_response (Some res) response status_code fp
  = Ok (ReturnResponse (resource_xml res (pretty fp))
                       (Py.int_or status_code 200) (format fp),
        response).
Proof.
  intros Hformat Hfp. unfold format_response, new_Response.
  rewrite bool_decide_false by exact Hformat. by rewrite Hfp.
Qed.



End ComposerProperties.



(** ** The assertions and the frame of [format_response] *)

Section ComposerContract.

Context {Resource Dict : Type} `{Serializers Resource Dict}.

Implicit Types (res : Resource) (resource : option Resource)
  (response : option Response) (status_code : option Z) (fp : FormatParameters).

(** The call read backwards: its result is that of a write to the caller's
    response, or of the construction of a new [Response] or [JSONResponse]. *)
Lemma format_response_inversion resource response status_code fp :
  (exists message,
     format_response resource response status_code fp
     = stamp_and_return message resource response fp
     /\ (resource = None
         \/ (format fp = "application/fhir+json" /\ pretty fp = false
             /\ Py.opt_int_truthy status_code = false)))
  \/ (exists content,
        format_response resource response status_code fp
        = (new ← new_Response content (Py.int_or status_code 200) (format fp);
           mret (new, response)))
  \/ (exists res code,
        format_response resource response status_code fp
        = (new ← new_JSONResponse (resource_dict res) code (format fp);
           mret (new, response))).
Proof.
  destruct resource as [res|]; [|left; eexists; split; [reflexivity|by left]].
  unfold format_response. case_bool_decide as Hformat.
  - destruct (pretty fp) eqn:Hpretty.
    + right. left. by eexists.
    + destruct status_code as [code|].
      * destruct (code =? 0) eqn:Hcode; cbn [negb].
        -- left. eexists. split; [reflexivity|]. right.
           repeat split; try done. cbn. by rewrite Hcode.
        -- right. right. by exists res, code.
      * left. eexists. split; [reflexivity|]. by right.
  - right. left. by eexists.
Qed.

(** C8, as the code has it.  When a response object is supplied whenever
    the resource is absent, and whenever the format is minified JSON and no
    status code (or the status code 0) is given, no assertion of
    [format_response] fires.  With the resource absent and a format that the
    header encoding takes (the two canonical tokens are such), it returns
    [None], which is no body, and leaves the caller's response with the
    format as its Content-Type header and with its body as it was.  And the
    call returns whenever, besides, the framework can render the resource's
    dictionary.  The two canonical tokens are formats that the header
    encoding takes. *)
Theorem format_response_contract resource response status_code fp :
  (resource = None -> response <> None) ->
  (format fp = "application/fhir+json" -> pretty fp = false ->
   status_code = None \/ status_code = Some 0 -> response <> None) ->
  (forall message,
     format_response resource response status_code fp <> Raise (AssertionError message))
  /\ (resource = None -> Py.latin1_encodable (format fp) = true ->
      exists sink sink',
        response = Some sink
        /\ format_response resource response status_code fp
           = Ok (ReturnResource None, Some sink')
        /\ Headers_getlist "Content-Type" (raw_headers sink') = [format fp]
        /\ body sink' = body sink)
  /\ (Py.latin1_encodable (format fp) = true ->
      (forall res, resource = Some res ->
         exists body_, JSONResponse_render (resource_dict res) = inl body_) ->
      exists out, format_response resource response status_code fp = Ok out)
  /\ (format fp = "application/fhir+json" \/ format fp = "application/fhir+xml" ->
      Py.latin1_encodable (format fp) = true).
Proof.
  intros Habsent Hdefault.
  assert (resource = None
          \/ (format fp = "application/fhir+json" /\ pretty fp = false
              /\ Py.opt_int_truthy status_code = false) ->
          exists sink, response = Some sink) as Hsink.
  { intros Hbranch. destruct response as [sink|]; [by exists sink|].
    destruct Hbranch as [Hresource|(Hformat & Hpretty & Hstatus)].
    - by destruct (Habsent Hresource).
    - destruct (Hdefault Hformat Hpretty); [|done].
      destruct status_code as [code|]; [right|by left].
      cbn in Hstatus. apply negb_false_iff, Z.eqb_eq in Hstatus. by subst. }
  split; [|split; [|split]]; [| | |by intros [-> | ->]].
  - intros message Hraise.
    destruct (format_response_inversion resource response status_code fp)
      as [(m & Hstamp & Hbranch)|[(content & Hnew)|(res & code & Hnew)]];
      rewrite Hraise in *.
    + destruct (Hsink Hbranch) as (sink & ->).
      unfold stamp_and_return in Hstamp.
      destruct (Py.latin1_encodable (format fp)); discriminate.
    + unfold new_Response in Hnew.
      destruct (Py.latin1_encodable (format fp)); discriminate.
    + unfold new_JSONResponse in Hnew.
      destruct (JSONResponse_render (resource_dict res));
        [destruct (Py.latin1_encodable (format fp))|]; discriminate.
  - intros -> Hfp. destruct response as [sink|]; [|by destruct (Habsent eq_refl)].
    exists sink, (set_header sink "Content-Type" (format fp)).
    split; [reflexivity|].
    split; [by rewrite format_response_absent, stamp_and_return_supplied|].
    split; [apply getlist_setitem_same|reflexivity].
  - intros Hfp Hrender. destruct resource as [res|].
    + destruct (decide (format fp = "application/fhir+json")) as [Hformat|Hformat].
      * destruct (pretty fp) eqn:Hpretty.
        -- rewrite format_response_pretty_json by assumption. by eexists.
        -- destruct status_code as [code|].
           ++ destruct (decide (code = 0)) as [->|Hcode].
              ** rewrite format_response_json_default by auto.
                 destruct response as [sink|];
                   [rewrite stamp_and_return_supplied by exact Hfp; by eexists|].
                 by destruct (Hdefault Hformat eq_refl (or_intror eq_refl)).
              ** destruct (Hrender res eq_refl) as (body_ & Hbody).
                 erewrite format_response_json_with_status by eassumption.
                 by eexists.
           ++ rewrite format_response_json_default by auto.
              destruct response as [sink|];
                [rewrite stamp_and_return_supplied by exact Hfp; by eexists|].
              by destruct (Hdefault Hformat eq_refl (or_introl eq_refl)).
      * rewrite format_response_xml by assumption. by eexists.
    + destruct response as [sink|]; [|by destruct (Habsent eq_refl)].
      rewrite format_response_absent, stamp_and_return_supplied by exact Hfp.
      by eexists.
Qed.

(** C10.  A call that builds a new response hands the caller's response
    back as it got it.  The caller's response changes only when the
    resource is absent or in the default branch of minified JSON, and then
    nothing but its Content-Type header changes. *)
Theorem format_response_frame resource response status_code fp returned response' :
  format_response resource response status_code fp = Ok (returned, response') ->
  (is_Some resource -> is_new_response returned = true -> response' = response)
  /\ (response' <> response ->
      resource = None
      \/ (format fp = "application/fhir+json" /\ pretty fp = false
          /\ Py.opt_int_truthy status_code = false))
  /\ (forall sink, response = Some sink ->
      exists sink', response' = Some sink'
        /\ response_status_code sink' = response_status_code sink
        /\ body sink' = body sink
        /\ forall key, Py.lower key <> "content-type" ->
             Headers_getlist key (raw_headers sink')
             = Headers_getlist key (raw_headers sink)).
Proof.
  intros Hcall.
  assert ((is_new_response returned = true /\ response' = response)
          \/ (is_new_response returned = false
              /\ (resource = None
                  \/ (format fp = "application/fhir+json" /\ pretty fp = false
                      /\ Py.opt_int_truthy status_code = false))
              /\ exists sink, response = Some sink
                   /\ response' = Some (set_header sink "Content-Type" (format fp))))
    as Hcases.
  { destruct (format_response_inversion resource response status_code fp)
      as [(m & Hstamp & Hbranch)|[(content & Hnew)|(res & code & Hnew)]];
      rewrite Hcall in *.
    - right. unfold stamp_and_return in Hstamp.
      destruct response as [sink|]; [|discriminate].
      destruct (Py.latin1_encodable (format fp)); [|discriminate].
      injection Hstamp as -> ->. split; [reflexivity|]. split; [exact Hbranch|].
      by exists sink.
    - left. unfold new_Response in Hnew.
      destruct (Py.latin1_encodable (format fp)); [|discriminate].
      by injection Hnew as -> ->.
    - left. unfold new_JSONResponse in Hnew.
      destruct (JSONResponse_render (resource_dict res)); [|discriminate].
      destruct (Py.latin1_encodable (format fp)); [|discriminate].
      by injection Hnew as -> ->. }
  split; [|split].
  - intros _ Hnew. destruct Hcases as [(_ & Hsame)|(Hold & _)]; [exact Hsame|].
    congruence.
  - intros Hchanged. destruct Hcases as [(_ & Hsame)|(_ & Hbranch & _)]; [done|].
    exact Hbranch.
  - intros sink Hresponse.
    destruct Hcases as [(_ & ->)|(_ & _ & sink0 & Hsink0 & ->)].
    + exists sink. by rewrite Hresponse.
    + rewrite Hresponse in Hsink0. injection Hsink0 as <-.
      eexists. split; [reflexivity|]. split; [reflexivity|]. split; [reflexivity|].
      intros key Hkey. by apply getlist_setitem_other.
Qed.

End ComposerContract.

Lemma format_response_contract_witness :
  let fp := {| format := "application/fhir+xml"; pretty := false |} in
  (forall message,
     format_response (@None string) (Some sample_response) (Some 404) fp
     <> Raise (AssertionError message))
  /\ (exists sink sink',
       Some sample_response = Some sink
       /\ format_response (@None string) (Some sample_response) (Some 404) fp
          = Ok (ReturnResource None, Some sink')
       /\ Headers_getlist "Content-Type" (raw_headers sink') = [format fp]
       /\ body sink' = body sink)
  /\ exists out,
       format_response (@None string) (Some sample_response) (Some 404) fp = Ok out.
Proof.
  intros fp.
  destruct (format_response_contract (@None string) (Some sample_response) (Some 404) fp)
    as (Hquiet & Habsent & Hreturns & _).
  - discriminate.
  - discriminate.
  - split; [exact Hquiet|]. split; [by apply Habsent|].
    apply Hreturns; [reflexivity|discriminate].
Defined.

(** C8 as the specification words it fails at the explicit status code 0:
    the resource is present and a status code is given, so the precondition
    asks for no response object, and yet the assertion of the default branch
    fires. *)
Lemma format_response_contract_counterexample :
  let resource := Some "p" in
  let response := @None Response in
  let status_code := Some 0 in
  let fp := FormatParameters_default in
  (resource = None -> response <> None)
  /\ (format fp = "application/fhir+json" -> pretty fp = false ->
      status_code = None -> response <> None)
  /\ format_response resource response status_code fp
     = Raise (AssertionError
         "Response object or status code must be provided for non-pretty JSON responses").
Proof.
  intros resource response status_code fp.
  split; [discriminate|]. split; [discriminate|]. reflexivity.
Qed.

Lemma format_response_frame_witness :
  let fp := {| format := "application/fhir+json"; pretty := true |} in
  let returned : Returned string string :=
    ReturnResponse "json(p)" 200 "application/fhir+json" in
  (is_Some (Some "p") -> is_new_response returned = true ->
   Some sample_response = Some sample_response)
  /\ exists sink', Some sample_response = Some sink'
       /\ response_status_code sink' = response_status_code sample_response
       /\ body sink' = body sample_response
       /\ forall key, Py.lower key <> "content-type" ->
            Headers_getlist key (raw_headers sink')
            = Headers_getlist key (raw_headers sample_response).
Proof.
  intros fp returned.
  destruct (format_response_frame (Some "p") (Some sample_response) None fp
              returned (Some sample_response)) as (Hframe & _ & Hheaders).
  - reflexivity.
  - split; [exact Hframe|]. apply Hheaders. reflexivity.
Defined.

(** A format outside latin-1 (here the one letter U+03BB, two bytes in
    UTF-8) cannot be written to a header: with the response supplied and the
    resource absent the call raises, and so it does when it builds the XML
    response. *)
Example format_response_unencodable_format :
  let fp := {| format := String (ascii_of_nat 206) (String (ascii_of_nat 187) "");
               pretty := false |} in
  format_response (@None string) (Some sample_response) None fp
  = Raise (UnicodeEncodeError (format fp))
  /\ format_response (Some "p") (Some sample_response) None fp
     = Raise (UnicodeEncodeError (format fp)).
Proof. split; reflexivity. Qed.

(** * Error payloads *)

(** C9, as the code has it.  For a severity, a code and a details text that
    the schema library's validators accept, [make_operation_outcome] returns
    an outcome with exactly one issue, and that issue carries the three
    values; it returns for no other values: when a validator refuses one of
    them the constructor raises [ValidationError]. *)
Theorem make_operation_outcome_one_issue `{SchemaValidators}
    (severity_ code_ details_text : string) :
  (Code_validate severity_ = true -> Code_validate code_ = true ->
   String_validate details_text = true ->
   exists outcome_ i,
     make_operation_outcome severity_ code_ details_text = Ok outcome_
     /\ length (issue outcome_) = 1%nat
     /\ issue outcome_ = [i]
     /\ severity i = severity_ /\ code i = code_ /\ text (details i) = details_text)
  /\ (Code_validate severity_ = false \/ Code_validate code_ = false
      \/ String_validate details_text = false ->
      make_operation_outcome severity_ code_ details_text
      = Raise (ValidationError "OperationOutcome")).
Proof.
  unfold make_operation_outcome. split.
  - intros -> -> ->. do 2 eexists. split; [reflexivity|]. by repeat split.
  - intros [-> |[-> | ->]]; [reflexivity| |].
    + by rewrite andb_false_r.
    + by rewrite andb_false_r.
Qed.

Lemma make_operation_outcome_one_issue_witness :
  exists outcome_ i,
    make_operation_outcome "error" "not-found" "Unknown Patient resource 'X'"
    = Ok outcome_
    /\ length (issue outcome_) = 1%nat
    /\ issue outcome_ = [i]
    /\ severity i = "error" /\ code i = "not-found"
    /\ text (details i) = "Unknown Patient resource 'X'".
Proof.
  apply (proj1 (make_operation_outcome_one_issue
                  "error" "not-found" "Unknown Patient resource 'X'"));
    reflexivity.
Defined.

(** C9 as the specification words it fails at an empty severity: the
    constructor of the outcome refuses it, and nothing is returned. *)
Lemma make_operation_outcome_counterexample :
  make_operation_outcome "" "structure" "Invalid request"
  = Raise (ValidationError "OperationOutcome").
Proof. reflexivity. Qed.

(** * Further properties of the route metadata *)

(** ** The route options *)

Lemma dict_display_dom entries (options : gmap string Value) :
  dom (dict_display entries options) = dom options ∪ dom (dict_of_items entries).
Proof. unfold dict_display. apply dom_union_L. Qed.

Lemma dict_display_options entries (options : gmap string Value) :
  options ⊆ dict_display entries options.
Proof. unfold dict_display. apply map_union_subseteq_l. Qed.

(** Every route option reaches the route arguments with its value, whatever
    its key, and the arguments have the eight keys of the builder and the
    keys of the options, no others. *)
Theorem route_args_carry_options (i : TypeInteraction) :
  Forall (fun build =>
            route_options i ⊆ build i
            /\ dom (build i) = route_arg_keys ∪ dom (route_options i))
         route_builders.
Proof.
  unfold route_builders.
  repeat (apply Forall_cons_2; [split; [apply dict_display_options|]|]);
    [..|apply Forall_nil_2].
  - unfold create_route_args. display_keys.
  - unfold read_route_args. display_keys.
  - unfold search_type_route_args. display_keys.
  - unfold search_type_route_args. display_keys.
  - unfold update_route_args. display_keys.
Qed.

(** ** The merge of documented responses *)

Lemma responses_fold_lookup i (rs : list (TypeInteraction -> gmap Z ResponseDoc))
    (merged : gmap Z ResponseDoc) c :
  Forall (fun response => response i !! c = None) rs ->
  fold_left (fun merged_responses response => response i ∪ merged_responses) rs merged !! c
  = merged !! c.
Proof.
  intros Hnone. revert merged.
  induction Hnone as [|response rest Hresponse _ IH]; intros merged; cbn [fold_left].
  - reflexivity.
  - rewrite IH. by rewrite lookup_union_r.
Qed.

Lemma responses_fold_origin i (rs : list (TypeInteraction -> gmap Z ResponseDoc))
    (merged : gmap Z ResponseDoc) c d :
  fold_left (fun merged_responses response => response i ∪ merged_responses) rs merged !! c
  = Some d ->
  merged !! c = Some d \/ exists response, response ∈ rs /\ response i !! c = Some d.
Proof.
  revert merged. induction rs as [|response rest IH]; intros merged; cbn [fold_left].
  - by left.
  - intros Hc. destruct (IH _ Hc) as [Hhere|(response' & Hin & Hresponse')].
    + apply lookup_union_Some_raw in Hhere as [Hnew|[_ Hold]].
      * right. exists response. split; [apply list_elem_of_here|exact Hnew].
      * by left.
    + right. exists response'. split; [by apply list_elem_of_further|exact Hresponse'].
Qed.

(** What [_responses] documents under a status code is what the last response
    function that has the code says; and it documents nothing that none of
    the functions says. *)
Theorem responses_last_wins (i : TypeInteraction)
    (earlier later : list (TypeInteraction -> gmap Z ResponseDoc))
    (response : TypeInteraction -> gmap Z ResponseDoc) (c : Z) (d : ResponseDoc) :
  response i !! c = Some d ->
  Forall (fun response' => response' i !! c = None) later ->
  _responses i (earlier ++ response :: later) !! c = Some d
  /\ forall rs c' d', _responses i rs !! c' = Some d' ->
       exists response', response' ∈ rs /\ response' i !! c' = Some d'.
Proof.
  intros Hresponse Hlater. split.
  - unfold _responses. rewrite fold_left_app. cbn [fold_left].
    rewrite (responses_fold_lookup _ _ _ _ Hlater). by apply lookup_union_Some_l.
  - intros rs c' d' Hc'. unfold _responses in Hc'.
    destruct (responses_fold_origin _ _ _ _ _ Hc') as [Hempty|Horigin];
      [by rewrite lookup_empty in Hempty|exact Horigin].
Qed.

Lemma responses_last_wins_witness :
  let i := sample_interaction ReadInteraction ∅ in
  let other := fun _ : TypeInteraction =>
    ({[ 404 := {| model := Patient; description := "first" |} ]} : gmap Z ResponseDoc) in
  _responses i ([other] ++ _not_found :: [_ok]) !! 404
  = Some {| model := OperationOutcomeClass; description := "Unknown Patient resource" |}.
Proof.
  intros i other.
  refine (proj1 (responses_last_wins i [other] [_ok] _not_found 404 _ _ _)).
  - vm_compute. reflexivity.
  - apply Forall_cons_2; [vm_compute; reflexivity|apply Forall_nil_2].
Defined.

(** ** The models of the documented responses *)

Lemma documented_error_model i (rs : list (TypeInteraction -> gmap Z ResponseDoc)) c d :
  rs ⊆ [_ok; _created; _bad_request; _unauthorized; _not_found; _unprocessable_entity] ->
  _responses i rs !! c = Some d -> 400 <= c -> model d = OperationOutcomeClass.
Proof.
  intros Hrs Hc Herror. unfold _responses in Hc.
  destruct (responses_fold_origin _ _ _ _ _ Hc) as [Hempty|(response & Hin & Hresponse)];
    [by rewrite lookup_empty in Hempty|].
  apply Hrs in Hin. rewrite !elem_of_cons, elem_of_nil in Hin.
  destruct Hin as [->|[->|[->|[->|[->|[->|[]]]]]]];
    unfold _ok, _created, _bad_request, _unauthorized, _not_found,
      _unprocessable_entity, Responses_of in Hresponse;
    apply lookup_singleton_Some in Hresponse as [<- <-];
    first [reflexivity | by vm_compute in Herror].
Qed.

(** Whatever a builder documents under a status code from 400 on has the
    error payload, [OperationOutcome], as its model. *)
Theorem documented_errors_are_outcomes (i : TypeInteraction) :
  not_overridden "responses" i ->
  Forall (fun build =>
            exists r, build i !! "responses" = Some (VResponses r)
              /\ forall c d, r !! c = Some d -> 400 <= c ->
                   model d = OperationOutcomeClass)
         route_builders.
Proof.
  intros Hr. unfold route_builders.
  repeat (apply Forall_cons_2; [eexists; split|]); [..|apply Forall_nil_2].
  - by apply create_route_args_responses.
  - intros c d. apply documented_error_model. listed.
  - by apply read_route_args_responses.
  - intros c d. apply documented_error_model. listed.
  - by apply search_type_route_args_responses.
  - intros c d. apply documented_error_model. listed.
  - by apply search_type_route_args_responses.
  - intros c d. apply documented_error_model. listed.
  - by apply update_route_args_responses.
  - intros c d. apply documented_error_model. listed.
Qed.

Lemma documented_errors_are_outcomes_witness :
  Forall (fun build =>
            exists r, build (sample_interaction UpdateInteraction ∅) !! "responses"
                      = Some (VResponses r)
              /\ forall c d, r !! c = Some d -> 400 <= c ->
                   model d = OperationOutcomeClass)
         route_builders.
Proof.
  apply (documented_errors_are_outcomes (sample_interaction UpdateInteraction ∅)).
  unfold not_overridden. vm_compute. reflexivity.
Defined.

Lemma responses_ok_first i (later : list (TypeInteraction -> gmap Z ResponseDoc)) :
  Forall (fun response => response i !! 200 = None) later ->
  _responses i (_ok :: later) !! 200
  = Some {| model := if negb (is_search_type i) then resource_type i else Bundle;
            description := "Successful " +:+ get_resource_type (resource_type i)
                           +:+ " " +:+ label i |}.
Proof.
  intros Hlater. unfold _responses. cbn [fold_left].
  rewrite (responses_fold_lookup _ _ _ _ Hlater).
  apply lookup_union_Some_l. unfold _ok, Responses_of. apply lookup_singleton_eq.
Qed.

(** The documented model of the success response against the response model
    of the route.  Create documents the resource type under 201, which is its
    response model.  Search-type has [Bundle] as response model, and documents
    [Bundle] under 200 exactly for an interaction of the search-type class.
    Read and update have the resource type as response model, and document
    it under 200 exactly for an interaction that is not of the search-type
    class; for one that is they document [Bundle]. *)
Theorem documented_success_model (i : TypeInteraction) :
  not_overridden "responses" i -> not_overridden "response_model" i ->
  (exists r d, create_route_args i !! "responses" = Some (VResponses r)
     /\ r !! 201 = Some d /\ model d = resource_type i
     /\ create_route_args i !! "response_model" = Some (VClass (resource_type i)))
  /\ (forall post, exists r d,
        search_type_route_args i post !! "responses" = Some (VResponses r)
        /\ r !! 200 = Some d
        /\ search_type_route_args i post !! "response_model" = Some (VClass Bundle)
        /\ (kind i = SearchTypeInteraction -> model d = Bundle)
        /\ (kind i <> SearchTypeInteraction -> model d = resource_type i))
  /\ Forall (fun build => exists r d,
               build i !! "responses" = Some (VResponses r)
               /\ r !! 200 = Some d
               /\ build i !! "response_model" = Some (VClass (resource_type i))
               /\ (kind i = SearchTypeInteraction -> model d = Bundle)
               /\ (kind i <> SearchTypeInteraction -> model d = resource_type i))
            [read_route_args; update_route_args].
Proof.
  intros Hr Hm.
  assert (forall d, d = (if negb (is_search_type i) then resource_type i else Bundle) ->
          (kind i = SearchTypeInteraction -> d = Bundle)
          /\ (kind i <> SearchTypeInteraction -> d = resource_type i)) as Hkind.
  { intros d ->. unfold is_search_type. destruct (kind i); split; (done || congruence). }
  split; [|split].
  - do 2 eexists. split; [by apply create_route_args_responses|].
    split; [|split; [|unfold create_route_args; display_entry Hm]].
    + unfold _responses. cbn [fold_left]. unfold _created at 1, Responses_of.
      rewrite !lookup_union_r by reflexivity.
      apply lookup_union_Some_l, lookup_singleton_eq.
    + reflexivity.
  - intros post. do 2 eexists. split; [by apply search_type_route_args_responses|].
    split; [apply responses_ok_first; no_ok_later|].
    split; [unfold search_type_route_args; display_entry Hm|].
    by apply Hkind.
  - apply Forall_cons_2; [|apply Forall_cons_2; [|apply Forall_nil_2]].
    + do 2 eexists. split; [by apply read_route_args_responses|].
      split; [apply responses_ok_first; no_ok_later|].
      split; [unfold read_route_args; display_entry Hm|]. by apply Hkind.
    + do 2 eexists. split; [by apply update_route_args_responses|].
      split; [apply responses_ok_first; no_ok_later|].
      split; [unfold update_route_args; display_entry Hm|]. by apply Hkind.
Qed.

Lemma documented_success_model_witness :
  let i := sample_interaction SearchTypeInteraction ∅ in
  exists r d,
    search_type_route_args i true !! "responses" = Some (VResponses r)
    /\ r !! 200 = Some d
    /\ search_type_route_args i true !! "response_model" = Some (VClass Bundle)
    /\ (kind i = SearchTypeInteraction -> model d = Bundle)
    /\ (kind i <> SearchTypeInteraction -> model d = resource_type i).
Proof.
  intros i.
  destruct (documented_success_model i) as (_ & Hsearch & _);
    [unfold not_overridden; vm_compute; reflexivity ..|exact (Hsearch true)].
Defined.

(** * Further properties of the negotiation *)

(** What the header decides is a canonical token that tests true. *)
Lemma format_from_accept_header_Some (request : Request) v :
  format_from_accept_header request = Some v ->
  method request = "POST"
  /\ exists token, token ∈ accept_tokens request /\ _CONTENT_TYPES !! token = Some v.
Proof.
  unfold format_from_accept_header, accept_tokens.
  case_bool_decide as Hm; [|discriminate].
  intros Hfirst. split; [exact Hm|]. by apply first_content_type_Some.
Qed.

(** [from_request] fails in one situation only, and in one way: in strict
    mode, when the header decides nothing and the _format token (or "json",
    without one) has no entry in the alias table; the error is the
    [FHIRGeneralError] of status 400, severity "error" and code "structure".
    No [KeyError] of the table lookup ever leaves the function. *)
Theorem from_request_raises_exactly (request : Request) (raise_exception : bool)
    (e : exn) :
  from_request request raise_exception = Raise e <->
  raise_exception = true
  /\ (method request <> "POST" \/ no_alias (accept_tokens request))
  /\ _CONTENT_TYPES !! default "json" (query_value "_format" request) = None
  /\ e = FHIRGeneralError 400 "error" "structure"
           "Invalid response format specified for '_format' parameter".
Proof.
  rewrite <- format_from_accept_header_None.
  destruct (format_from_accept_header request) as [v|] eqn:Hheader.
  - rewrite (from_request_header _ _ _ Hheader).
    split; [discriminate|]. intros (_ & Hnone & _). discriminate.
  - rewrite (from_request_query _ _ Hheader).
    destruct (_CONTENT_TYPES !! default "json" (query_value "_format" request)).
    + split; [discriminate|]. intros (_ & _ & Hnone & _). discriminate.
    + destruct raise_exception.
      * split; [by intros [= <-]|by intros (_ & _ & _ & ->)].
      * split; [discriminate|]. intros (Hstrict & _). discriminate.
Qed.

(** Lenient mode returns whatever strict mode returns, and where strict mode
    fails it returns JSON with the pretty flag the query asks for. *)
Theorem from_request_lenient_of_strict (request : Request) :
  match from_request request true with
  | Ok fp => from_request request false = Ok fp
  | Raise _ =>
      from_request request false
      = Ok {| format := "application/fhir+json"; pretty := pretty_requested request |}
  end.
Proof.
  destruct (format_from_accept_header request) as [v|] eqn:Hheader.
  - by rewrite !(from_request_header _ _ _ Hheader).
  - rewrite !(from_request_query _ _ Hheader).
    by destruct (_CONTENT_TYPES !! default "json" (query_value "_format" request)).
Qed.

(** The result depends on the request only through its method, the values of
    its Accept lines and the last values of _format and _pretty in the query:
    other headers, other parameters and earlier values of the two change
    nothing. *)
Theorem from_request_reads_only (request1 request2 : Request) (raise_exception : bool) :
  method request1 = method request2 ->
  accept_tokens request1 = accept_tokens request2 ->
  query_value "_format" request1 = query_value "_format" request2 ->
  query_value "_pretty" request1 = query_value "_pretty" request2 ->
  from_request request1 raise_exception = from_request request2 raise_exception.
Proof.
  intros Hm Haccept Hformat Hpretty.
  assert (format_from_accept_header request1 = format_from_accept_header request2)
    as Hheader.
  { unfold format_from_accept_header. fold (accept_tokens request1).
    fold (accept_tokens request2). by rewrite Hm, Haccept. }
  assert (pretty_requested request1 = pretty_requested request2) as Hflag
    by (unfold pretty_requested; by rewrite Hpretty).
  destruct (format_from_accept_header request2) as [v|] eqn:Hheader2.
  - rewrite (from_request_header _ _ _ Hheader), (from_request_header _ _ _ Hheader2).
    by rewrite Hflag.
  - rewrite (from_request_query _ _ Hheader), (from_request_query _ _ Hheader2).
    by rewrite Hformat, Hflag.
Qed.

Lemma from_request_reads_only_witness :
  from_request
    {| method := "GET";
       headers := [("accept", "text/html"); ("user-agent", "curl")];
       query_params := [("_format", "bogus"); ("family", "Baggins"); ("_format", "xml")] |}
    true
  = from_request
      {| method := "GET"; headers := [("accept", "text/html")];
         query_params := [("_format", "xml")] |}
      true.
Proof.
  apply from_request_reads_only; vm_compute; reflexivity.
Defined.

(** A request that names no format, and whose header decides nothing, gets
    JSON in both modes. *)
Theorem from_request_default_json (request : Request) (raise_exception : bool) :
  method request <> "POST" \/ no_alias (accept_tokens request) ->
  query_value "_format" request = None ->
  from_request request raise_exception
  = Ok {| format := "application/fhir+json"; pretty := pretty_requested request |}.
Proof.
  intros Hheader Hformat. apply format_from_accept_header_None in Hheader.
  rewrite (from_request_query _ _ Hheader), Hformat. reflexivity.
Qed.

Lemma from_request_default_json_witness :
  let request := sample_request "POST" ["*/*"] [("_pretty", "true")] in
  from_request request true
  = Ok {| format := "application/fhir+json"; pretty := pretty_requested request |}.
Proof.
  intros request. apply from_request_default_json.
  - right. apply Forall_cons_2; [vm_compute; reflexivity|apply Forall_nil_2].
  - vm_compute. reflexivity.
Defined.

Lemma returned_format_canonical (request : Request) raise_exception fp :
  from_request request raise_exception = Ok fp ->
  _CONTENT_TYPES !! format fp = Some (format fp)
  /\ (format fp = "application/fhir+json" \/ format fp = "application/fhir+xml").
Proof.
  intros Hfp.
  assert (format fp = "application/fhir+json" \/ format fp = "application/fhir+xml")
    as Hcanonical.
  { destruct (format_from_accept_header request) as [v|] eqn:Hheader.
    - rewrite (from_request_header _ _ _ Hheader) in Hfp. injection Hfp as <-.
      destruct (format_from_accept_header_Some _ _ Hheader) as (_ & token & _ & Htoken).
      exact (content_types_canonical _ _ Htoken).
    - rewrite (from_request_query _ _ Hheader) in Hfp.
      destruct (_CONTENT_TYPES !! _) as [v|] eqn:Htoken.
      + injection Hfp as <-. exact (content_types_canonical _ _ Htoken).
      + destruct raise_exception; [discriminate|]. injection Hfp as <-. by left. }
  split; [|exact Hcanonical]. by destruct Hcanonical as [-> | ->].
Qed.

(** The format a request resolved to, given back as the _format value of a
    request that is not a POST, resolves to itself: the canonical tokens are
    their own aliases. *)
Theorem from_request_format_round_trip (request request' : Request)
    (raise_exception raise_exception' : bool) (fp : FormatParameters) :
  from_request request raise_exception = Ok fp ->
  method request' <> "POST" ->
  query_value "_format" request' = Some (format fp) ->
  from_request request' raise_exception'
  = Ok {| format := format fp; pretty := pretty_requested request' |}.
Proof.
  intros Hfp Hm Hformat.
  destruct (returned_format_canonical _ _ _ Hfp) as (Hfixed & _).
  assert (format_from_accept_header request' = None) as Hheader'
    by (apply format_from_accept_header_None; by left).
  rewrite (from_request_query _ _ Hheader'), Hformat. cbn [default from_option id].
  by rewrite Hfixed.
Qed.

Lemma from_request_format_round_trip_witness :
  let request := sample_request "POST" ["text/xml"] [] in
  let request' := sample_request "GET" [] [("_format", "application/fhir+xml")] in
  from_request request' false
  = Ok {| format := format {| format := "application/fhir+xml"; pretty := false |};
          pretty := pretty_requested request' |}.
Proof.
  intros request request'.
  apply (from_request_format_round_trip request request' true false).
  - vm_compute. reflexivity.
  - discriminate.
  - vm_compute. reflexivity.
Defined.

(** * Further properties of the composition *)

(** ** Setting a header twice *)

Lemma filter_other_twice (key : string) (raw : list (string * string)) :
  filter (fun later => later.1 <> key) (filter (fun later => later.1 <> key) raw)
  = filter (fun later => later.1 <> key) raw.
Proof.
  induction raw as [|item raw IH]; [reflexivity|].
  destruct (decide (item.1 <> key)) as [Hne|Heq].
  - rewrite !(filter_cons_True (fun later => later.1 <> key)) by exact Hne.
    by rewrite IH.
  - by rewrite !(filter_cons_False (fun later => later.1 <> key)) by exact Heq.
Qed.

Lemma replace_header_twice (key value : string) (raw : list (string * string)) :
  replace_header key value (replace_header key value raw) = replace_header key value raw.
Proof.
  induction raw as [|item raw IH]; cbn [replace_header]; [reflexivity|].
  case_bool_decide as Hkey; cbn [replace_header].
  - rewrite bool_decide_true by reflexivity. by rewrite filter_other_twice.
  - rewrite bool_decide_false by exact Hkey. by rewrite IH.
Qed.

Lemma replace_header_appended (key value : string) (raw : list (string * string)) :
  key ∉ raw.*1 ->
  replace_header key value (raw ++ [(key, value)])%list = (raw ++ [(key, value)])%list.
Proof.
  induction raw as [|item raw IH]; cbn [replace_header app fmap list_fmap].
  - intros _. by rewrite bool_decide_true by reflexivity.
  - rewrite not_elem_of_cons. intros [Hhere Hlater].
    rewrite bool_decide_false by congruence. by rewrite IH.
Qed.

Lemma replace_header_keeps_key (key value : string) (raw : list (string * string)) :
  key ∈ raw.*1 -> key ∈ (replace_header key value raw).*1.
Proof.
  induction raw as [|item raw IH]; cbn [replace_header fmap list_fmap].
  - intros Hin. by apply elem_of_nil in Hin.
  - intros Hin. case_bool_decide as Hkey.
    + apply list_elem_of_here.
    + apply elem_of_cons in Hin as [Hhere|Hlater]; [congruence|].
      apply list_elem_of_further. by apply IH.
Qed.

Lemma setitem_twice (key value : string) (raw : list (string * string)) :
  MutableHeaders_setitem key value (MutableHeaders_setitem key value raw)
  = MutableHeaders_setitem key value raw.
Proof.
  unfold MutableHeaders_setitem. cbn zeta.
  destruct (decide (Py.lower key ∈ raw.*1)) as [Hin|Hin].
  - rewrite (bool_decide_true _ Hin).
    rewrite bool_decide_true by (by apply replace_header_keeps_key).
    apply replace_header_twice.
  - rewrite (bool_decide_false _ Hin). rewrite bool_decide_true.
    + by apply replace_header_appended.
    + rewrite fmap_app. apply elem_of_app. right. apply list_elem_of_here.
Qed.

Lemma set_header_twice (sink : Response) (key value : string) :
  set_header (set_header sink key value) key value = set_header sink key value.
Proof. unfold set_header. cbn. by rewrite setitem_twice. Qed.

(** ** What a call returns, and when it fails *)

Section ComposerFurther.

Context {Resource Dict : Type} `{Serializers Resource Dict}.

Implicit Types (res : Resource) (resource : option Resource)
  (response : option Response) (status_code : option Z) (fp : FormatParameters).

Lemma int_or_nonzero status_code (default : Z) :
  default <> 0 -> Py.int_or status_code default <> 0.
Proof.
  intros Hdefault. destruct status_code as [code|]; cbn; [|exact Hdefault].
  destruct (code =? 0) eqn:Hcode; [exact Hdefault|by apply Z.eqb_neq].
Qed.

(** What a returned value says about the call, with the fact that the format
    went through the header encoding. *)
Lemma returned_branch resource response status_code fp out response' :
  format_response resource response status_code fp = Ok (out, response') ->
  Py.latin1_encodable (format fp) = true
  /\ match out with
     | ReturnResource returned =>
         returned = resource
         /\ (resource = None
             \/ (format fp = "application/fhir+json" /\ pretty fp = false
                 /\ Py.opt_int_truthy status_code = false))
         /\ exists sink, response = Some sink
              /\ response' = Some (set_header sink "Content-Type" (format fp))
     | ReturnResponse content code media_type =>
         exists res, resource = Some res
           /\ media_type = format fp
           /\ code = Py.int_or status_code 200 /\ code <> 0
           /\ response' = response
           /\ ((format fp = "application/fhir+json" /\ pretty fp = true
                /\ content = resource_json res 2 (", ", ": "))
               \/ (format fp <> "application/fhir+json"
                   /\ content = resource_xml res (pretty fp)))
     | ReturnJSONResponse content code media_type =>
         exists res, resource = Some res
           /\ format fp = "application/fhir+json" /\ pretty fp = false
           /\ status_code = Some code /\ code <> 0
           /\ media_type = format fp
           /\ content = resource_dict res
           /\ response' = response
     end.
Proof.
  intros Hcall. destruct resource as [res|].
  - unfold format_response in Hcall. case_bool_decide as Hformat.
    + destruct (pretty fp) eqn:Hpretty.
      * unfold new_Response in Hcall.
        destruct (Py.latin1_encodable (format fp)); [|discriminate].
        injection Hcall as <- <-. split; [reflexivity|]. exists res.
        repeat (split; [reflexivity || (apply int_or_nonzero; by compute)|]). by left.
      * assert (Py.opt_int_truthy status_code = false ->
                stamp_and_return
                  "Response object or status code must be provided for non-pretty JSON responses"
                  (Some res) response fp = Ok (out, response') ->
                Py.latin1_encodable (format fp) = true
                /\ match out with
                   | ReturnResource returned =>
                       returned = Some res
                       /\ (Some res = None
                           \/ (format fp = "application/fhir+json" /\ false = false
                               /\ Py.opt_int_truthy status_code = false))
                       /\ exists sink, response = Some sink
                            /\ response' = Some (set_header sink "Content-Type" (format fp))
                   | _ => False
                   end) as Hstamp.
        { intros Hstatus Hstamp. unfold stamp_and_return in Hstamp.
          destruct response as [sink|]; [|discriminate].
          destruct (Py.latin1_encodable (format fp)); [|discriminate].
          injection Hstamp as <- <-. split; [reflexivity|]. split; [reflexivity|].
          split; [by right|]. by exists sink. }
        destruct status_code as [code|].
        -- destruct (code =? 0) eqn:Hcode; cbn [negb] in Hcall.
           ++ destruct (Hstamp ltac:(cbn; by rewrite Hcode) Hcall) as (Hfp & Hout).
              split; [exact Hfp|]. by destruct out.
           ++ unfold new_JSONResponse in Hcall.
              destruct (JSONResponse_render (resource_dict res)); [|discriminate].
              destruct (Py.latin1_encodable (format fp)); [|discriminate].
              injection Hcall as <- <-. split; [reflexivity|]. exists res.
              repeat split; try done. by apply Z.eqb_neq.
        -- destruct (Hstamp eq_refl Hcall) as (Hfp & Hout).
           split; [exact Hfp|]. by destruct out.
    + unfold new_Response in Hcall.
      destruct (Py.latin1_encodable (format fp)); [|discriminate].
      injection Hcall as <- <-. split; [reflexivity|]. exists res.
      repeat (split; [reflexivity || (apply int_or_nonzero; by compute)|]). by right.
  - rewrite format_response_absent in Hcall. unfold stamp_and_return in Hcall.
    destruct response as [sink|]; [|discriminate].
    destruct (Py.latin1_encodable (format fp)); [|discriminate].
    injection Hcall as <- <-. split; [reflexivity|]. split; [reflexivity|].
    split; [by left|]. by exists sink.
Qed.

(** The call read backwards, from what it returned.  A returned resource is
    the one handed in, and the caller's response was there and got the
    header.  A new [Response] renders the resource handed in, as indented
    JSON for pretty JSON and as XML for every format that is not the JSON
    token (the format is not checked any further); a new [JSONResponse]
    holds its [dict()].  A new response has the format as media type and the
    given status code, 200 for none or 0, so never the status 0, and leaves
    the caller's response as it was. *)
Theorem format_response_returned resource response status_code fp out response' :
  format_response resource response status_code fp = Ok (out, response') ->
  match out with
  | ReturnResource returned =>
      returned = resource
      /\ (resource = None
          \/ (format fp = "application/fhir+json" /\ pretty fp = false
              /\ Py.opt_int_truthy status_code = false))
      /\ exists sink, response = Some sink
           /\ response' = Some (set_header sink "Content-Type" (format fp))
  | ReturnResponse content code media_type =>
      exists res, resource = Some res
        /\ media_type = format fp
        /\ code = Py.int_or status_code 200 /\ code <> 0
        /\ response' = response
        /\ ((format fp = "application/fhir+json" /\ pretty fp = true
             /\ content = resource_json res 2 (", ", ": "))
            \/ (format fp <> "application/fhir+json"
                /\ content = resource_xml res (pretty fp)))
  | ReturnJSONResponse content code media_type =>
      exists res, resource = Some res
        /\ format fp = "application/fhir+json" /\ pretty fp = false
        /\ status_code = Some code /\ code <> 0
        /\ media_type = format fp
        /\ content = resource_dict res
        /\ response' = response
  end.
Proof. intros Hcall. exact (proj2 (returned_branch _ _ _ _ _ _ Hcall)). Qed.


(** A second call with the response the first one left returns the same and
    leaves that response as it is: the header is set, not added to. *)
Theorem format_response_again resource sink status_code fp out sink' :
  format_response resource (Some sink) status_code fp = Ok (out, Some sink') ->
  format_response resource (Some sink') status_code fp = Ok (out, Some sink').
Proof.
  intros Hcall. destruct (returned_branch _ _ _ _ _ _ Hcall) as (Hfp & Hout).
  destruct out as [returned|content code media_type|content code media_type].
  - destruct Hout as (-> & Hbranch & sink0 & [= <-] & [= ->]).
    destruct Hbranch as [->|(Hformat & Hpretty & Hstatus)].
    + rewrite format_response_absent, stamp_and_return_supplied by exact Hfp.
      by rewrite set_header_twice.
    + destruct resource as [res|];
        [|rewrite format_response_absent, stamp_and_return_supplied by exact Hfp;
          by rewrite set_header_twice].
      rewrite format_response_json_default; [|assumption ..|].
      * rewrite stamp_and_return_supplied by exact Hfp. by rewrite set_header_twice.
      * destruct status_code as [code|]; [|by left]. right.
        cbn in Hstatus. apply negb_false_iff, Z.eqb_eq in Hstatus. by subst.
  - destruct Hout as (res & -> & _ & _ & _ & [= ->] & _). exact Hcall.
  - destruct Hout as (res & -> & _ & _ & _ & _ & _ & _ & [= ->]). exact Hcall.
Qed.

(** Negotiation and composition together: with the parameters a request
    resolved to, whatever the call produces is labelled with one of the two
    canonical tokens, as the media type of a new response or as the one
    Content-Type value of the caller's response. *)
Theorem negotiated_response_label (request : Request) (raise_exception : bool)
    fp resource response status_code out response' :
  from_request request raise_exception = Ok fp ->
  format_response resource response status_code fp = Ok (out, response') ->
  exists label_,
    (label_ = "application/fhir+json" \/ label_ = "application/fhir+xml")
    /\ match out with
       | ReturnResource _ =>
           exists sink', response' = Some sink'
             /\ Headers_getlist "Content-Type" (raw_headers sink') = [label_]
       | ReturnResponse _ _ media_type | ReturnJSONResponse _ _ media_type =>
           media_type = label_
       end.
Proof.
  intros Hfp Hcall. exists (format fp).
  split; [exact (proj2 (returned_format_canonical _ _ _ Hfp))|].
  destruct (returned_branch _ _ _ _ _ _ Hcall) as (_ & Hout).
  destruct out as [returned|content code media_type|content code media_type].
  - destruct Hout as (_ & _ & sink & _ & ->). eexists. split; [reflexivity|].
    apply getlist_setitem_same.
  - by destruct Hout as (res & _ & -> & _).
  - by destruct Hout as (res & _ & _ & _ & _ & _ & -> & _).
Qed.

End ComposerFurther.

Lemma format_response_returned_witness :
  exists res, Some "p" = Some res
    /\ "text/html" = format {| format := "text/html"; pretty := true |}
    /\ 200 = Py.int_or (Some 0) 200 /\ 200 <> 0
    /\ Some sample_response = Some sample_response
    /\ ((format {| format := "text/html"; pretty := true |} = "application/fhir+json"
         /\ pretty {| format := "text/html"; pretty := true |} = true
         /\ "pretty-xml(p)" = resource_json res 2 (", ", ": "))
        \/ (format {| format := "text/html"; pretty := true |} <> "application/fhir+json"
            /\ "pretty-xml(p)"
               = resource_xml res (pretty {| format := "text/html"; pretty := true |}))).
Proof.
  exact (format_response_returned (Some "p") (Some sample_response) (Some 0)
           {| format := "text/html"; pretty := true |}
           (ReturnResponse "pretty-xml(p)" 200 "text/html") (Some sample_response)
           eq_refl).
Defined.

Lemma format_response_again_witness :
  let sink' := set_header sample_response "Content-Type" "application/fhir+json" in
  format_response (Some "p") (Some sink') None FormatParameters_default
  = Ok (ReturnResource (Dict:=string) (Some "p"), Some sink').
Proof.
  intros sink'.
  apply (format_response_again (Some "p") sample_response None FormatParameters_default).
  reflexivity.
Defined.

Lemma negotiated_response_label_witness :
  exists label_,
    (label_ = "application/fhir+json" \/ label_ = "application/fhir+xml")
    /\ exists sink',
         Some (set_header sample_response "Content-Type" "application/fhir+xml")
         = Some sink'
         /\ Headers_getlist "Content-Type" (raw_headers sink') = [label_].
Proof.
  refine (negotiated_response_label
            (sample_request "GET" [] [("_format", "text/xml")]) true
            {| format := "application/fhir+xml"; pretty := false |}
            (@None string) (Some sample_response) (Some 404)
            (ReturnResource (Dict:=string) None)
            (Some (set_header sample_response "Content-Type" "application/fhir+xml"))
            _ _).
  - vm_compute. reflexivity.
  - reflexivity.
Defined.

(** * The in-memory callbacks of the test module *)

(** ** The database as a dictionary *)

Lemma database_get_None (id_ : string) (db : Database) :
  database_get id_ db = None <-> id_ ∉ db.*1.
Proof.
  induction db as [|[key patient] db IH]; cbn [database_get fmap list_fmap fst].
  - split; [intros _; apply not_elem_of_nil|reflexivity].
  - rewrite not_elem_of_cons. case_bool_decide as Hkey.
    + split; [discriminate|]. intros [Hne _]. congruence.
    + rewrite IH. split; [intros Hin; split; [congruence|exact Hin]|tauto].
Qed.

Lemma database_get_set_same (id_ : string) patient (db : Database) :
  database_get id_ (database_set id_ patient db) = Some patient.
Proof.
  induction db as [|[key old] db IH]; cbn [database_set database_get].
  - by rewrite bool_decide_true.
  - case_bool_decide as Hkey; cbn [database_get].
    + by rewrite bool_decide_true.
    + by rewrite bool_decide_false.
Qed.

Lemma database_get_set_other (id_ other : string) patient (db : Database) :
  other <> id_ ->
  database_get other (database_set id_ patient db) = database_get other db.
Proof.
  intros Hne. induction db as [|[key old] db IH]; cbn [database_set database_get].
  - by rewrite bool_decide_false.
  - case_bool_decide as Hkey; cbn [database_get].
    + subst key. by rewrite !bool_decide_false by congruence.
    + by rewrite IH.
Qed.

Lemma database_set_present (id_ : string) patient (db : Database) :
  id_ ∈ db.*1 -> (database_set id_ patient db).*1 = db.*1.
Proof.
  induction db as [|[key old] db IH]; cbn [database_set fmap list_fmap fst].
  - intros Hin. by apply elem_of_nil in Hin.
  - intros Hin. case_bool_decide as Hkey; [reflexivity|].
    cbn [fmap list_fmap fst]. f_equal. apply IH.
    apply elem_of_cons in Hin as [Hhere|Hlater]; [congruence|exact Hlater].
Qed.

Lemma database_set_fresh (id_ : string) patient (db : Database) :
  id_ ∉ db.*1 -> database_set id_ patient db = (db ++ [(id_, patient)])%list.
Proof.
  induction db as [|[key old] db IH]; cbn [database_set fmap list_fmap fst app].
  - reflexivity.
  - rewrite not_elem_of_cons. intros [Hne Hlater].
    rewrite bool_decide_false by congruence. by rewrite IH.
Qed.

Lemma database_set_NoDup (id_ : string) patient (db : Database) :
  NoDup db.*1 -> NoDup (database_set id_ patient db).*1.
Proof.
  intros Hdb. destruct (decide (id_ ∈ db.*1)) as [Hin|Hin].
  - by rewrite database_set_present.
  - rewrite database_set_fresh, fmap_app by exact Hin.
    apply NoDup_app. split; [exact Hdb|]. split.
    + intros key Hkey Hnew. apply list_elem_of_singleton in Hnew. by subst.
    + apply NoDup_singleton.
Qed.

(** ** Read, update and create *)

(** Read and update of an identifier fail with the not-found error exactly
    when the database does not have it, and an update that fails stores
    nothing. *)
Theorem callbacks_unknown_id (id_ : string) (resource : PatientResource) (db : Database) :
  (patient_read id_ db = Raises FHIRResourceNotFoundError <-> id_ ∉ db.*1)
  /\ ((patient_update id_ resource db).1 = Raises FHIRResourceNotFoundError
      <-> id_ ∉ db.*1)
  /\ (forall e, (patient_update id_ resource db).1 = Raises e ->
        (patient_update id_ resource db).2 = db).
Proof.
  split; [|split].
  - unfold patient_read. rewrite <- database_get_None.
    destruct (database_get id_ db); split; (done || discriminate).
  - unfold patient_update. case_bool_decide as Hin; cbn [fst]; [done|].
    split; [discriminate|done].
  - intros e. unfold patient_update. case_bool_decide as Hin; cbn [fst snd];
      [done|discriminate].
Qed.

(** An update of an identifier the database has stores the resource as it
    is given under that identifier: a read of it gives the resource back,
    reads of other identifiers are as before, and the keys keep their number
    and order.  What the update returns is the identifier inside the
    resource, which need not be the one updated. *)
Theorem patient_update_then_read (id_ : string) (resource : PatientResource)
    (db : Database) :
  id_ ∈ db.*1 ->
  let result := patient_update id_ resource db in
  result.1 = Returns (Id_of (patient_id resource))
  /\ patient_read id_ result.2 = Returns resource
  /\ (forall other, other <> id_ -> patient_read other result.2 = patient_read other db)
  /\ result.2.*1 = db.*1.
Proof.
  intros Hin result. subst result. unfold patient_update.
  rewrite bool_decide_false by tauto. cbn [fst snd]. split; [reflexivity|].
  unfold patient_read. split; [by rewrite database_get_set_same|].
  split; [|by apply database_set_present].
  intros other Hother. by rewrite database_get_set_other.
Qed.

Lemma patient_update_then_read_witness :
  let frodo := {| patient_id := Some "b"; patient_name := None; patient_rest := "Frodo" |} in
  let bilbo := {| patient_id := Some "a"; patient_name := None; patient_rest := "Bilbo" |} in
  let result := patient_update "a" frodo [("a", bilbo)] in
  result.1 = Returns (Id_of (patient_id frodo))
  /\ patient_read "a" result.2 = Returns frodo
  /\ (forall other, other <> "a" ->
        patient_read other result.2 = patient_read other [("a", bilbo)])
  /\ result.2.*1 = [("a", bilbo)].*1.
Proof.
  intros frodo bilbo.
  apply (patient_update_then_read "a" frodo [("a", bilbo)]).
  apply list_elem_of_here.
Defined.

(** A create stores the resource with the generated identifier written into
    it and returns that identifier: a read of it gives the stored patient,
    reads of other identifiers are as before, a key that is new goes last,
    and keys that were distinct stay distinct. *)
Theorem patient_create_then_read (generated : string) (resource : PatientResource)
    (db : Database) :
  let stored := {| patient_id := Some generated;
                   patient_name := patient_name resource;
                   patient_rest := patient_rest resource |} in
  let result := patient_create generated resource db in
  result.1 = Returns generated
  /\ patient_read generated result.2 = Returns stored
  /\ (forall other, other <> generated ->
        patient_read other result.2 = patient_read other db)
  /\ (generated ∉ db.*1 -> result.2 = (db ++ [(generated, stored)])%list)
  /\ (NoDup db.*1 -> NoDup result.2.*1).
Proof.
  intros stored result. subst stored result. unfold patient_create. cbn [fst snd Id_of].
  split; [reflexivity|]. unfold patient_read.
  split; [by rewrite database_get_set_same|].
  split; [intros other Hother; by rewrite database_get_set_other|].
  split; [apply database_set_fresh|apply database_set_NoDup].
Qed.

(** ** Search by family name *)

Lemma append_matches_elem (family_ : option string) patient (names : list HumanName)
    (patients : list PatientResource) x :
  x ∈ append_matches family_ patient names patients <->
  x ∈ patients \/ (x = patient /\ exists name, name ∈ names /\ family name = family_).
Proof.
  unfold append_matches. revert patients.
  induction names as [|name names IH]; intros patients; cbn [fold_left].
  - split; [by left|]. intros [Hin|(_ & name & Hname & _)]; [exact Hin|].
    by apply elem_of_nil in Hname.
  - rewrite IH. case_bool_decide as Hfamily.
    + rewrite elem_of_app, list_elem_of_singleton. split.
      * intros [[Hin| ->]|(-> & name' & Hname' & Hfamily')].
        -- by left.
        -- right. split; [reflexivity|]. exists name.
           split; [apply list_elem_of_here|exact Hfamily].
        -- right. split; [reflexivity|]. exists name'.
           split; [by apply list_elem_of_further|exact Hfamily'].
      * intros [Hin|(-> & name' & Hname' & Hfamily')]; [by left; left|].
        left. by right.
    + split.
      * intros [Hin|(-> & name' & Hname' & Hfamily')]; [by left|].
        right. split; [reflexivity|]. exists name'.
        split; [by apply list_elem_of_further|exact Hfamily'].
      * intros [Hin|(-> & name' & Hname' & Hfamily')]; [by left|].
        apply elem_of_cons in Hname' as [-> |Hlater]; [congruence|].
        right. split; [reflexivity|]. by exists name'.
Qed.

Lemma search_values_elem (family_ : option string) (values : list PatientResource)
    (patients : list PatientResource) :
  Forall (fun patient => is_Some (patient_name patient)) values ->
  exists found,
    search_values family_ values patients = Returns found
    /\ forall x, x ∈ found <->
         x ∈ patients
         \/ (x ∈ values /\ exists names name,
               patient_name x = Some names /\ name ∈ names /\ family name = family_).
Proof.
  intros Hnames. revert patients.
  induction Hnames as [|patient values [names Hpatient] _ IH]; intros patients;
    cbn [search_values].
  - exists patients. split; [reflexivity|]. intros x. split; [by left|].
    intros [Hin|(Hin & _)]; [exact Hin|]. by apply elem_of_nil in Hin.
  - rewrite Hpatient.
    destruct (IH (append_matches family_ patient names patients)) as (found & -> & Hfound).
    exists found. split; [reflexivity|]. intros x.
    rewrite Hfound, append_matches_elem, elem_of_cons. split.
    + intros [[Hin|(-> & name & Hname & Hfamily)]|(Hin & Hmatch)].
      * by left.
      * right. split; [by left|]. by exists names, name.
      * right. split; [by right|exact Hmatch].
    + intros [Hin|([-> |Hin] & names' & name & Hnames' & Hname & Hfamily)].
      * by left; left.
      * left. right. split; [reflexivity|]. exists name.
        rewrite Hpatient in Hnames'. injection Hnames' as <-. by split.
      * right. split; [exact Hin|]. by exists names', name.
Qed.

Lemma search_values_TypeError (family_ : option string) (values : list PatientResource)
    (patients : list PatientResource) :
  Exists (fun patient => patient_name patient = None) values ->
  search_values family_ values patients
  = Raises (TypeError "'NoneType' object is not iterable").
Proof.
  intros Hnone. revert patients.
  induction values as [|patient values IH]; intros patients; cbn [search_values].
  - by apply Exists_nil in Hnone.
  - destruct (patient_name patient) as [names|] eqn:Hpatient; [|reflexivity].
    apply IH. apply Exists_cons in Hnone as [Hhere|Hlater]; [congruence|exact Hlater].
Qed.

Lemma append_matches_replicate (family_ : option string) patient
    (names : list HumanName) (patients : list PatientResource) :
  append_matches family_ patient names patients
  = (patients
     ++ replicate (length (filter (fun name => family name = family_) names)) patient)%list.
Proof.
  unfold append_matches. revert patients.
  induction names as [|name names IH]; intros patients; cbn [fold_left].
  - cbn. by rewrite app_nil_r.
  - rewrite IH. case_bool_decide as Hfamily.
    + rewrite filter_cons_True by exact Hfamily. cbn [length replicate].
      by rewrite <- app_assoc.
    + by rewrite filter_cons_False by exact Hfamily.
Qed.

Lemma search_values_in_order (family_ : option string) (values : list PatientResource)
    (patients : list PatientResource) :
  Forall (fun patient => is_Some (patient_name patient)) values ->
  search_values family_ values patients
  = Returns
      (patients
       ++ flat_map
            (fun patient =>
               replicate
                 (length (filter (fun name => family name = family_)
                                 (default [] (patient_name patient))))
                 patient)
            values)%list.
Proof.
  intros Hnames. revert patients.
  induction Hnames as [|patient values [names Hpatient] _ IH]; intros patients;
    cbn [search_values flat_map].
  - by rewrite app_nil_r.
  - rewrite Hpatient, IH, append_matches_replicate. cbn [default].
    by rewrite <- app_assoc.
Qed.

(** When every stored patient has names, the search returns a bundle of
    type "searchset" whose total is the number of its entries, and whose
    entries are, in the order the patients are stored, each patient once for
    each of its names with the family asked for ([None] asks for the names
    without a family): a patient with no such name is left out, one with
    two of them is entered twice.  So a patient is among the entries exactly
    when it is stored and one of its names has that family.  When a stored
    patient has no names at all, the search fails with a [TypeError],
    whatever family is asked for. *)
Theorem patient_search_type_result (family_ : option string) (db : Database) :
  (Forall (fun patient => is_Some (patient_name patient)) db.*2 ->
   exists bundle,
     patient_search_type family_ db = Returns bundle
     /\ bundle_type bundle = "searchset"
     /\ total bundle = length (entry bundle)
     /\ entry bundle
        = flat_map
            (fun patient =>
               replicate
                 (length (filter (fun name => family name = family_)
                                 (default [] (patient_name patient))))
                 patient)
            db.*2
     /\ forall x, x ∈ entry bundle <->
          x ∈ db.*2 /\ exists names name,
            patient_name x = Some names /\ name ∈ names /\ family name = family_)
  /\ (Exists (fun patient => patient_name patient = None) db.*2 ->
      patient_search_type family_ db
      = Raises (TypeError "'NoneType' object is not iterable")).
Proof.
  split.
  - intros Hnames. unfold patient_search_type.
    destruct (search_values_elem family_ db.*2 [] Hnames) as (found & Hfound & Helem).
    rewrite Hfound.
    eexists. split; [reflexivity|]. split; [reflexivity|]. split; [reflexivity|].
    cbn [entry]. split.
    + rewrite (search_values_in_order _ _ _ Hnames) in Hfound.
      by injection Hfound as <-.
    + intros x. rewrite Helem. split.
      * intros [Hin|Hmatch]; [by apply elem_of_nil in Hin|exact Hmatch].
      * intros Hmatch. by right.
  - intros Hnone. unfold patient_search_type.
    by rewrite search_values_TypeError.
Qed.

Lemma patient_search_type_result_witness :
  let baggins := {| family := Some "Baggins"; given := Some ["Bilbo"] |} in
  let took := {| family := Some "Took"; given := Some ["Peregrin"] |} in
  let bilbo := {| patient_id := Some "a"; patient_name := Some [baggins; took; baggins];
                  patient_rest := "" |} in
  let pippin := {| patient_id := Some "c"; patient_name := Some [took];
                   patient_rest := "" |} in
  let nameless := {| patient_id := Some "b"; patient_name := None; patient_rest := "" |} in
  (exists bundle,
     patient_search_type (Some "Baggins") [("c", pippin); ("a", bilbo)] = Returns bundle
     /\ bundle_type bundle = "searchset"
     /\ total bundle = length (entry bundle)
     /\ entry bundle
        = flat_map
            (fun patient =>
               replicate
                 (length (filter (fun name => family name = Some "Baggins")
                                 (default [] (patient_name patient))))
                 patient)
            [("c", pippin); ("a", bilbo)].*2
     /\ forall x, x ∈ entry bundle <->
          x ∈ [("c", pippin); ("a", bilbo)].*2 /\ exists names name,
            patient_name x = Some names /\ name ∈ names /\ family name = Some "Baggins")
  /\ patient_search_type (Some "Baggins") [("a", bilbo); ("b", nameless)]
     = Raises (TypeError "'NoneType' object is not iterable").
Proof.
  intros baggins took bilbo pippin nameless. split.
  - apply (proj1 (patient_search_type_result (Some "Baggins")
                    [("c", pippin); ("a", bilbo)])).
    apply Forall_cons_2; [by eexists|].
    apply Forall_cons_2; [by eexists|apply Forall_nil_2].
  - apply (proj2 (patient_search_type_result (Some "Baggins")
                    [("a", bilbo); ("b", nameless)])).
    apply Exists_cons_tl, Exists_cons_hd. reflexivity.
Defined.

(** A patient with two names of the family asked for is counted twice. *)
Example patient_search_type_counts_names :
  patient_search_type (Some "Baggins")
    [("a", {| patient_id := Some "a";
              patient_name := Some [ {| family := Some "Baggins"; given := None |};
                                     {| family := Some "Baggins"; given := None |} ];
              patient_rest := "" |})]
  = Returns {| bundle_type := "searchset"; total := 2;
               entry := replicate 2
                 {| patient_id := Some "a";
                    patient_name := Some [ {| family := Some "Baggins"; given := None |};
                                           {| family := Some "Baggins"; given := None |} ];
                    patient_rest := "" |} |}.
Proof. vm_compute. reflexivity. Qed.

(** * The paths of the five routes *)

Lemma append_cancel (s a b : string) : s +:+ a = s +:+ b -> a = b.
Proof.
  induction s as [|c s IH]; [by intros|].
  change (String c s +:+ a) with (String c (s +:+ a)).
  change (String c s +:+ b) with (String c (s +:+ b)).
  intros [= Hrest]. by apply IH.
Qed.

(** The five routes of an interaction, their paths left to the builders, have
    three paths between them: create and the GET search share the collection
    path, read and update share the instance path, and the POST search has a
    path of its own; the three differ for every resource type name. *)
Theorem route_paths (i : TypeInteraction) :
  not_overridden "path" i ->
  exists collection instance search,
    create_route_args i !! "path" = Some (VStr collection)
    /\ search_type_route_args i false !! "path" = Some (VStr collection)
    /\ read_route_args i !! "path" = Some (VStr instance)
    /\ update_route_args i !! "path" = Some (VStr instance)
    /\ search_type_route_args i true !! "path" = Some (VStr search)
    /\ collection <> instance /\ collection <> search /\ instance <> search.
Proof.
  intros Hp. set (type := get_resource_type (resource_type i)).
  exists ("/" +:+ type), ("/" +:+ type +:+ "/{id}"), ("/" +:+ type +:+ "/_search").
  split; [by apply create_route_args_path|].
  split; [rewrite (search_type_route_args_path i false) by exact Hp;
          by rewrite append_empty|].
  split; [by apply read_route_args_path|].
  split; [by apply update_route_args_path|].
  split; [by apply (search_type_route_args_path i true)|].
  split; [|split].
  - rewrite <- (append_empty type) at 1. intros Heq.
    apply append_cancel, append_cancel in Heq. discriminate.
  - rewrite <- (append_empty type) at 1. intros Heq.
    apply append_cancel, append_cancel in Heq. discriminate.
  - intros Heq. apply append_cancel, append_cancel in Heq. discriminate.
Qed.

Lemma route_paths_witness :
  exists collection instance search,
    create_route_args (sample_interaction CreateInteraction ∅) !! "path"
      = Some (VStr collection)
    /\ search_type_route_args (sample_interaction CreateInteraction ∅) false !! "path"
       = Some (VStr collection)
    /\ read_route_args (sample_interaction CreateInteraction ∅) !! "path"
       = Some (VStr instance)
    /\ update_route_args (sample_interaction CreateInteraction ∅) !! "path"
       = Some (VStr instance)
    /\ search_type_route_args (sample_interaction CreateInteraction ∅) true !! "path"
       = Some (VStr search)
    /\ collection <> instance /\ collection <> search /\ instance <> search.
Proof.
  apply (route_paths (sample_interaction CreateInteraction ∅)).
  unfold not_overridden. vm_compute. reflexivity.
Defined.
